(** * jaipurtraffic/dash: timestamp normaliser, relative-time phrases, grid constants

    Shallow embedding of [src/lib/timeUtils.ts] and [src/lib/constants.ts],
    together with a model of the part of the ECMAScript platform these
    functions call ([String.prototype] methods, the [Date] constructor and
    its abstract operations), and of the cell-centre mapping that the
    coordinate tests exercise. *)

From Stdlib Require Import ZArith QArith Qabs List String Ascii Bool Lia Lqa.
From Stdlib Require Import Sorted Permutation.
Import ListNotations.

Local Open Scope string_scope.
Local Open Scope Z_scope.

(** ** ECMAScript strings

    Timestamps are ASCII; a JS string is modelled as a Rocq [string], one
    [ascii] per code unit. *)

Module JSString.

(** [String.prototype.startsWith(pat)] at position 0. *)
Fixpoint startsWith (s pat : string) : bool :=
  match pat, s with
  | EmptyString, _ => true
  | String _ _, EmptyString => false
  | String p pat', String c s' => Ascii.eqb c p && startsWith s' pat'
  end.

(** [String.prototype.includes(pat)]: [pat] occurs at some index. *)
Fixpoint includes (s pat : string) : bool :=
  startsWith s pat ||
  match s with
  | EmptyString => false
  | String _ s' => includes s' pat
  end.

(** [String.prototype.endsWith(pat)]: some suffix of [s] is [pat]. *)
Fixpoint endsWith (s pat : string) : bool :=
  String.eqb s pat ||
  match s with
  | EmptyString => false
  | String _ s' => endsWith s' pat
  end.

(** [String.prototype.slice(start, end)], negative indices counted from
    the end and both clamped to the string. *)
Definition slice (s : string) (start_ end_ : Z) : string :=
  let len := Z.of_nat (String.length s) in
  let from := if start_ <? 0 then Z.max (len + start_) 0 else Z.min start_ len in
  let to := if end_ <? 0 then Z.max (len + end_) 0 else Z.min end_ len in
  let span := Z.max (to - from) 0 in
  String.substring (Z.to_nat from) (Z.to_nat span) s.

Fixpoint drop (n : nat) (s : string) : string :=
  match n, s with
  | O, _ => s
  | S _, EmptyString => EmptyString
  | S n', String _ s' => drop n' s'
  end.

(** [String.prototype.replace(pat, rep)] with a string pattern: only the
    first occurrence is replaced. *)
Fixpoint replace (s pat rep : string) : string :=
  if startsWith s pat then (rep ++ drop (String.length pat) s)%string
  else match s with
       | EmptyString => EmptyString
       | String c s' => String c (replace s' pat rep)
       end.

End JSString.

(** ** ECMAScript numbers

    Every number the two functions compute is an integer of magnitude below
    2^53 or NaN, so a Number is an exact integer or [NaN]. *)

Inductive Number : Type :=
| NaN : Number
| Int : Z -> Number.

Module Num.

Definition sub (a b : Number) : Number :=
  match a, b with
  | Int x, Int y => Int (x - y)
  | _, _ => NaN
  end.

(** [Math.floor(a / c)] for a positive integer constant [c].  On doubles
    the quotient is rounded before the floor.  For the difference of the
    current time and a time value, and the constants used here (60000,
    3600000 and 24), the quotient stays below 2^38 and its distance to the
    next integer, at least 1/c, exceeds half a unit in the last place: the
    rounded quotient never reaches that integer and the result is the
    integer floor. *)
Definition floorDiv (a : Number) (c : Z) : Number :=
  match a with
  | Int x => Int (x / c)
  | NaN => NaN
  end.

(** [a % c]: the remainder takes the sign of the dividend. *)
Definition rem (a : Number) (c : Z) : Number :=
  match a with
  | Int x => Int (Z.rem x c)
  | NaN => NaN
  end.

(** [a === c] and [a < c]: both are false when [a] is NaN. *)
Definition strictEq (a : Number) (c : Z) : bool :=
  match a with
  | Int x => x =? c
  | NaN => false
  end.

Definition lt (a : Number) (c : Z) : bool :=
  match a with
  | Int x => x <? c
  | NaN => false
  end.

(** Decimal digits of a non-negative integer, most significant first. *)
Definition digitChar (d : Z) : ascii :=
  ascii_of_nat (48 + Z.to_nat d).

Fixpoint digitsPos (fuel : nat) (n : Z) (acc : string) : string :=
  match fuel with
  | O => acc
  | S fuel' =>
      let acc' := String (digitChar (n mod 10)) acc in
      if n <? 10 then acc' else digitsPos fuel' (n / 10) acc'
  end.

Definition digits (n : Z) : string :=
  digitsPos (S (Z.to_nat (Z.log2 n))) n EmptyString.

(** [Number::toString] as a template literal applies it: integers below
    10^21 print in plain decimal, negatives with a leading minus sign. *)
Definition toString (a : Number) : string :=
  match a with
  | NaN => "NaN"
  | Int x => if x <? 0 then String "-" (digits (- x)) else digits x
  end.

End Num.

(** ** ECMAScript time values and the [Date] abstract operations

    A time value is a Number: an integer count of milliseconds since the
    epoch, or NaN for an invalid Date. *)

Module DateOps.

Definition msPerSecond : Z := 1000.
Definition msPerMinute : Z := 60000.
Definition msPerHour : Z := 3600000.
Definition msPerDay : Z := 86400000.
Definition maxTime : Z := 8640000000000000.

Definition Day (t : Z) : Z := t / msPerDay.
Definition TimeWithinDay (t : Z) : Z := t mod msPerDay.

Definition isLeap (y : Z) : bool :=
  ((y mod 4 =? 0) && negb (y mod 100 =? 0)) || (y mod 400 =? 0).

Definition DaysInYear (y : Z) : Z := if isLeap y then 366 else 365.

Definition DayFromYear (y : Z) : Z :=
  365 * (y - 1970) + (y - 1969) / 4 - (y - 1901) / 100 + (y - 1601) / 400.

Definition TimeFromYear (y : Z) : Z := msPerDay * DayFromYear y.

(** The largest [y] with [TimeFromYear y <= t]: an estimate from the mean
    year length, corrected downwards and then upwards. *)
Fixpoint yearDown (fuel : nat) (d y : Z) : Z :=
  match fuel with
  | O => y
  | S fuel' => if d <? DayFromYear y then yearDown fuel' d (y - 1) else y
  end.

Fixpoint yearUp (fuel : nat) (d y : Z) : Z :=
  match fuel with
  | O => y
  | S fuel' => if DayFromYear (y + 1) <=? d then yearUp fuel' d (y + 1) else y
  end.

Definition YearFromTime (t : Z) : Z :=
  let d := Day t in
  yearUp 3 d (yearDown 3 d (1970 + (d * 400) / 146097)).

Definition DayWithinYear (t : Z) : Z := Day t - DayFromYear (YearFromTime t).

(** Day number within a year at which month [m] (0 = January) starts. *)
Definition monthStart (leap : bool) (m : Z) : Z :=
  let l := if leap then 1 else 0 in
  match m with
  | 0 => 0
  | 1 => 31
  | 2 => 59 + l
  | 3 => 90 + l
  | 4 => 120 + l
  | 5 => 151 + l
  | 6 => 181 + l
  | 7 => 212 + l
  | 8 => 243 + l
  | 9 => 273 + l
  | 10 => 304 + l
  | _ => 334 + l
  end.

Fixpoint monthOfDay (fuel : nat) (leap : bool) (d m : Z) : Z :=
  match fuel with
  | O => m
  | S fuel' =>
      if monthStart leap (m + 1) <=? d then monthOfDay fuel' leap d (m + 1) else m
  end.

Definition MonthFromTime (t : Z) : Z :=
  monthOfDay 11 (isLeap (YearFromTime t)) (DayWithinYear t) 0.

Definition DateFromTime (t : Z) : Z :=
  DayWithinYear t - monthStart (isLeap (YearFromTime t)) (MonthFromTime t) + 1.

Definition HourFromTime (t : Z) : Z := (t / msPerHour) mod 24.
Definition MinFromTime (t : Z) : Z := (t / msPerMinute) mod 60.
Definition SecFromTime (t : Z) : Z := (t / msPerSecond) mod 60.
Definition msFromTime (t : Z) : Z := t mod msPerSecond.

Definition MakeTime (hour min sec ms : Z) : Z :=
  hour * msPerHour + min * msPerMinute + sec * msPerSecond + ms.

(** [month] is 0-based; months outside 0..11 carry into the year. *)
Definition MakeDay (year month date : Z) : Z :=
  let ym := year + month / 12 in
  let mn := month mod 12 in
  DayFromYear ym + monthStart (isLeap ym) mn + date - 1.

Definition MakeDate (day time : Z) : Z := day * msPerDay + time.

Definition TimeClip (t : Number) : Number :=
  match t with
  | NaN => NaN
  | Int x => if maxTime <? Z.abs x then NaN else Int x
  end.

End DateOps.

(** ** The host environment

    What the runtime supplies: the local time zone adjustment
    [LocalTZA t isUTC] in milliseconds, and the current time. *)

Record Host : Type := mkHost {
  LocalTZA : Z -> bool -> Z;
  currentTime : Z
}.

Definition LocalTime (h : Host) (t : Z) : Z := t + LocalTZA h t true.
Definition UTC (h : Host) (t : Z) : Z := t - LocalTZA h t false.

(** ** The Date Time String Format, [YYYY-MM-DDTHH:mm:ss.sssZ]

    [Date.parse] on the interchange format of the standard.  Strings outside
    the format are left to the implementation by the standard; the model
    gives them the NaN that the standard names for unrecognisable strings. *)

Module DateString.

Record DateFields : Type := mkDateFields {
  year : Z;
  month : Z;      (* 1..12 *)
  day : Z         (* 1..31 *)
}.

Record TimeFields : Type := mkTimeFields {
  hour : Z;
  minute : Z;
  second : Z;
  millisecond : Z;
  offset : option Z   (* minutes east of UTC; [Some 0] for "Z" *)
}.

Record Parsed : Type := mkParsed {
  pdate : DateFields;
  ptime : option TimeFields
}.

Definition bind {A B : Type} (o : option A) (k : A -> option B) : option B :=
  match o with
  | Some a => k a
  | None => None
  end.

Local Notation "x <- e ;; k" := (bind e (fun x => k))
  (at level 61, e at next level, right associativity).
Local Notation "' p <- e ;; k" := (bind e (fun x => match x with p => k end))
  (at level 61, p pattern, e at next level, right associativity).

Definition guard (b : bool) : option unit := if b then Some tt else None.

Definition digitVal (c : ascii) : option Z :=
  let n := nat_of_ascii c in
  if (48 <=? n)%nat && (n <=? 57)%nat then Some (Z.of_nat (n - 48)) else None.

(** Exactly [n] decimal digits. *)
Fixpoint readDigits (n : nat) (s : string) (acc : Z) : option (Z * string) :=
  match n with
  | O => Some (acc, s)
  | S n' =>
      match s with
      | EmptyString => None
      | String c s' =>
          d <- digitVal c ;;
          readDigits n' s' (10 * acc + d)
      end
  end.

(** The next code unit must be [c]. *)
Definition expect (c : ascii) (s : string) : option string :=
  match s with
  | EmptyString => None
  | String a r => if Ascii.eqb a c then Some r else None
  end.

Definition atEnd (s : string) : option unit :=
  match s with
  | EmptyString => Some tt
  | String _ _ => None
  end.

(** The part before the first occurrence of [c], and the part after it. *)
Fixpoint splitAt (c : ascii) (s : string) : option (string * string) :=
  match s with
  | EmptyString => None
  | String a s' =>
      if Ascii.eqb a c then Some (EmptyString, s')
      else '(l, r) <- splitAt c s' ;; Some (String a l, r)
  end.

(** [YYYY], or an expanded year: a sign and six digits, "-000000"
    excluded. *)
Definition parseYear (s : string) : option (Z * string) :=
  match expect "+" s, expect "-" s with
  | Some r, _ => readDigits 6 r 0
  | None, Some r =>
      '(y, r') <- readDigits 6 r 0 ;;
      _ <- guard (negb (y =? 0)) ;;
      Some (- y, r')
  | None, None => readDigits 4 s 0
  end.

(** [YYYY], [YYYY-MM] or [YYYY-MM-DD], to the end of the string. *)
Definition parseDatePart (s : string) : option DateFields :=
  '(y, r) <- parseYear s ;;
  match atEnd r with
  | Some _ => Some (mkDateFields y 1 1)
  | None =>
      r1 <- expect "-" r ;;
      '(m, r2) <- readDigits 2 r1 0 ;;
      _ <- guard ((1 <=? m) && (m <=? 12)) ;;
      match atEnd r2 with
      | Some _ => Some (mkDateFields y m 1)
      | None =>
          r3 <- expect "-" r2 ;;
          '(d, r4) <- readDigits 2 r3 0 ;;
          _ <- guard ((1 <=? d) && (d <=? 31)) ;;
          _ <- atEnd r4 ;;
          Some (mkDateFields y m d)
      end
  end.

(** A sign has been read: [HH:mm] to the end of the string. *)
Definition parseOffsetHHmm (sign : Z) (r : string) : option (option Z) :=
  '(hh, r1) <- readDigits 2 r 0 ;;
  r2 <- expect ":" r1 ;;
  '(mm, r3) <- readDigits 2 r2 0 ;;
  _ <- guard ((hh <=? 23) && (mm <=? 59)) ;;
  _ <- atEnd r3 ;;
  Some (Some (sign * (hh * 60 + mm))).

(** The UTC offset: absent, "Z", or a sign and [HH:mm]. *)
Definition parseOffset (s : string) : option (option Z) :=
  match atEnd s, expect "Z" s, expect "+" s, expect "-" s with
  | Some _, _, _, _ => Some None
  | None, Some r, _, _ => _ <- atEnd r ;; Some (Some 0)
  | None, None, Some r, _ => parseOffsetHHmm 1 r
  | None, None, None, Some r => parseOffsetHHmm (-1) r
  | None, None, None, None => None
  end.

(** [:ss] and [.sss] after [HH:mm], both optional, the second only after
    the first. *)
Definition parseSeconds (s : string) : option (Z * Z * string) :=
  match expect ":" s with
  | None => Some (0, 0, s)
  | Some r =>
      '(ss, r1) <- readDigits 2 r 0 ;;
      match expect "." r1 with
      | None => Some (ss, 0, r1)
      | Some r2 =>
          '(ms, r3) <- readDigits 3 r2 0 ;;
          Some (ss, ms, r3)
      end
  end.

(** [HH:mm], [HH:mm:ss] or [HH:mm:ss.sss], then the offset.  Hour 24 is
    the end of the day and admits only 24:00:00.000. *)
Definition parseTimePart (s : string) : option TimeFields :=
  '(hh, r) <- readDigits 2 s 0 ;;
  r1 <- expect ":" r ;;
  '(mm, r2) <- readDigits 2 r1 0 ;;
  '(ss, ms, r3) <- parseSeconds r2 ;;
  off <- parseOffset r3 ;;
  _ <- guard ((hh <=? 24) && (mm <=? 59) && (ss <=? 59)) ;;
  _ <- guard ((hh <? 24) || ((mm =? 0) && (ss =? 0) && (ms =? 0))) ;;
  Some (mkTimeFields hh mm ss ms off).

Definition parseDateTimeString (s : string) : option Parsed :=
  match splitAt "T" s with
  | None =>
      d <- parseDatePart s ;;
      Some (mkParsed d None)
  | Some (ds, ts) =>
      d <- parseDatePart ds ;;
      t <- parseTimePart ts ;;
      Some (mkParsed d (Some t))
  end.

(** The calendar reading of the fields as a count of milliseconds, before
    any zone is applied. *)
Definition civilDay (d : DateFields) : Z :=
  DateOps.MakeDay (year d) (month d - 1) (day d).

Definition civilTime (d : DateFields) (t : TimeFields) : Z :=
  DateOps.MakeDate (civilDay d)
    (DateOps.MakeTime (hour t) (minute t) (second t) (millisecond t)).

(** The time value of parsed fields.  With an offset the fields are read
    in that offset; without one, a date-only form is UTC and a date-time
    form is local time of the host. *)
Definition timeValue (h : Host) (p : Parsed) : Number :=
  match ptime p with
  | None => DateOps.TimeClip (Int (DateOps.MakeDate (civilDay (pdate p)) 0))
  | Some t =>
      let local := civilTime (pdate p) t in
      match offset t with
      | Some off => DateOps.TimeClip (Int (local - off * DateOps.msPerMinute))
      | None => DateOps.TimeClip (Int (UTC h local))
      end
  end.

Definition parse (h : Host) (s : string) : Number :=
  match parseDateTimeString s with
  | Some p => timeValue h p
  | None => NaN
  end.

(** A date-time string without UTC offset: its date and clock fields. *)
Definition wallClock (s : string) : option (DateFields * TimeFields) :=
  match parseDateTimeString s with
  | Some (mkParsed d (Some t)) =>
      match offset t with
      | None => Some (d, t)
      | Some _ => None
      end
  | _ => None
  end.

(** A date-time string with an explicit UTC offset, in minutes. *)
Definition explicitOffset (s : string)
  : option (DateFields * TimeFields * Z) :=
  match parseDateTimeString s with
  | Some (mkParsed d (Some t)) =>
      match offset t with
      | Some off => Some (d, t, off)
      | None => None
      end
  | _ => None
  end.

End DateString.

(** ** [Date] objects *)

Record Date : Type := mkDate { getTime : Number }.

Module DateObj.

(** [new Date()]. *)
Definition now (h : Host) : Date := mkDate (Int (currentTime h)).

(** [new Date(string)]: never throws; an unrecognised string gives an
    invalid Date, whose time value is NaN. *)
Definition ofString (h : Host) (s : string) : Date :=
  mkDate (DateString.parse h s).

(** [new Date(number)]. *)
Definition ofNumber (n : Number) : Date := mkDate (DateOps.TimeClip n).

Definition isValid (d : Date) : bool :=
  match getTime d with
  | NaN => false
  | Int _ => true
  end.

Definition localField (f : Z -> Z) (h : Host) (d : Date) : Number :=
  match getTime d with
  | NaN => NaN
  | Int t => Int (f (LocalTime h t))
  end.

Definition getFullYear := localField DateOps.YearFromTime.
Definition getMonth := localField DateOps.MonthFromTime.
Definition getDate := localField DateOps.DateFromTime.
Definition getHours := localField DateOps.HourFromTime.
Definition getMinutes := localField DateOps.MinFromTime.
Definition getSeconds := localField DateOps.SecFromTime.

End DateObj.

(** ** [src/lib/constants.ts] *)

Module Constants.

Record GridDimensionsT : Type := mkGridDimensions {
  ROWS : Z;
  COLS : Z;
  ROW_HEIGHT : Q;
  ASPECT_RATIO : Q
}.

Definition GRID_DIMENSIONS : GridDimensionsT :=
  {| ROWS := 24;
     COLS := 16;
     ROW_HEIGHT := 53.3%Q;
     ASPECT_RATIO := (12750 / 10920)%Q |}.

Definition TIMEZONE : string := "Asia/Kolkata".

End Constants.

(** ** [src/lib/timeUtils.ts] *)

Module TimeUtils.

Import JSString.

(** Completion of a statement list inside [try]: a value, or a thrown
    error handed to [catch]. *)
Inductive Completion (A : Type) : Type :=
| Normal : A -> Completion A
| Throw : string -> Completion A.
Arguments Normal {A} _.
Arguments Throw {A} _.

Definition bind {A B : Type} (c : Completion A) (k : A -> Completion B)
  : Completion B :=
  match c with
  | Normal a => k a
  | Throw e => Throw e
  end.

Local Notation "x <- e ;; k" := (bind e (fun x => k))
  (at level 61, e at next level, right associativity).

(** What [console] receives. *)
Inductive ConsoleEvent : Type :=
| Warn : list string -> ConsoleEvent.

(** [5.5 * 60 * 60 * 1000], exact in a double. *)
Definition istOffsetQ : Q := (5.5 * 60 * 60 * 1000)%Q.
Definition istOffset : Z := 19800000.

(** The body of the [try] block, lines 5 to 42. *)
Definition tryBody (h : Host) (timestamp : string) : Completion Date :=
  date <-
    (if includes timestamp "T" then
       if endsWith timestamp "Z" then
         let timestampWithoutZ := slice timestamp 0 (-1) in
         Normal (DateObj.ofString h timestampWithoutZ)
       else
         Normal (DateObj.ofString h timestamp)
     else
       Normal (DateObj.ofString h (replace timestamp " " "T"))) ;;
  if endsWith timestamp "Z" || includes timestamp "T" then
    if endsWith timestamp "Z" then
      Normal date
    else
      date <- Normal (DateObj.ofNumber (Num.sub (getTime date) (Int istOffset))) ;;
      Normal date
  else
    Normal date.

(** [timestamp: string | null]; [!timestamp] holds for null and for the
    empty string.  The result is the returned Date and what was written
    to the console. *)
Definition parseISTTimestamp (h : Host) (timestamp : option string)
  : Date * list ConsoleEvent :=
  match timestamp with
  | None => (DateObj.now h, [])
  | Some EmptyString => (DateObj.now h, [])
  | Some ts =>
      match tryBody h ts with
      | Normal date => (date, [])
      | Throw _ =>
          (DateObj.now h, [Warn ["Invalid timestamp format:"; ts]])
      end
  end.

(** [now] is read from the host once, on entry. *)
Definition getHoursAgo (h : Host) (date : Date) : string :=
  let now := DateObj.now h in
  let diffInMs := Num.sub (getTime now) (getTime date) in
  let diffInMinutes := Num.floorDiv diffInMs (1000 * 60) in
  let diffInHours := Num.floorDiv diffInMs (1000 * 60 * 60) in
  if Num.strictEq diffInMinutes 0 then "Just now"
  else if Num.lt diffInMinutes 60 then
    (Num.toString diffInMinutes ++ " minute"
       ++ (if Num.strictEq diffInMinutes 1 then EmptyString else "s") ++ " ago")%string
  else if Num.lt diffInHours 24 then
    let remainingMinutes := Num.rem diffInMinutes 60 in
    if Num.strictEq remainingMinutes 0 then
      (Num.toString diffInHours ++ " hour"
         ++ (if Num.strictEq diffInHours 1 then EmptyString else "s") ++ " ago")%string
    else
      (Num.toString diffInHours ++ "h " ++ Num.toString remainingMinutes
         ++ "m ago")%string
  else
    let diffInDays := Num.floorDiv diffInHours 24 in
    if Num.strictEq diffInDays 1 then "1 day ago"
    else (Num.toString diffInDays ++ " days ago")%string.

End TimeUtils.

(** ** The cell-centre mapping *)

Module GridCoordinateMapper.

Record GeoCoordinate : Type := mkGeo { lat : Q; lng : Q }.

Record GeoBoundary : Type := mkBoundary {
  northwest : GeoCoordinate;
  southeast : GeoCoordinate
}.

Record GridDimensions : Type := mkGrid { columns : Z; rows : Z }.

Local Open Scope Q_scope.

(** Modelled from the spec: [src/lib/coordinateUtils.ts], which defines
    [getCellCenterCoordinates], is not among the sources; only its tests
    are.  Step sizes and centre offset follow section 4.1 of the
    specification: the longitude step is the longitude span over the
    columns, the latitude step the latitude span over the rows, and the
    centre sits half a step inside the cell. *)
Definition lngStep (b : GeoBoundary) (g : GridDimensions) : Q :=
  (lng (southeast b) - lng (northwest b)) / inject_Z (columns g).

Definition latStep (b : GeoBoundary) (g : GridDimensions) : Q :=
  (lat (northwest b) - lat (southeast b)) / inject_Z (rows g).

Definition cellCenter (b : GeoBoundary) (g : GridDimensions) (x y : Z)
  : GeoCoordinate :=
  {| lat := lat (northwest b) - latStep b g * (inject_Z y + 0.5);
     lng := lng (northwest b) + lngStep b g * (inject_Z x + 0.5) |}.

(** The boundary and grid of the literal scenario, as the coordinate
    tests state them. *)
Definition JAIPUR_BOUNDARIES : GeoBoundary :=
  {| northwest := {| lat := 26.99; lng := 75.65 |};
     southeast := {| lat := 26.78; lng := 75.92 |} |}.

Definition scenarioGrid : GridDimensions := {| columns := 15; rows := 21 |}.

(** [assertClose] of the tests passes when [|a - b| <= tol]. *)
Definition within (tol a b : Q) : Prop := Qabs (a - b) <= tol.

End GridCoordinateMapper.

(** ** The fixed civil zone

    A host whose local time is the fixed +05:30 zone at every instant, with
    no daylight-saving transitions. *)

Definition fixedZoneHost (h : Host) : Prop :=
  forall (t : Z) (isUTC : bool), LocalTZA h t isUTC = TimeUtils.istOffset.

Definition istHost (now : Z) : Host :=
  {| LocalTZA := fun _ _ => TimeUtils.istOffset; currentTime := now |}.

(** The clock reading of a time value in the fixed zone. *)
Definition fixedZoneClock (t : Z) : Z * Z :=
  (DateOps.HourFromTime (t + TimeUtils.istOffset),
   DateOps.MinFromTime (t + TimeUtils.istOffset)).

(** The reading that takes an offset-free date-time string for UTC: the
    result is the UTC reading of the fields moved by the zone offset, in
    either direction, or that reading itself. *)
Definition readAsUtcThenShifted (h : Host) (ts : string) : Prop :=
  forall (d : DateString.DateFields) (t : DateString.TimeFields),
    DateString.wallClock ts = Some (d, t) ->
    let tv := getTime (fst (TimeUtils.parseISTTimestamp h (Some ts))) in
    tv = Int (DateString.civilTime d t - TimeUtils.istOffset) \/
    tv = Int (DateString.civilTime d t + TimeUtils.istOffset) \/
    tv = Int (DateString.civilTime d t).

(** ** More of the platform: Number and String operations the other
    files use *)

Module JSMore.

(** [a + b] on Numbers. *)
Definition add (a b : Number) : Number :=
  match a, b with
  | Int x, Int y => Int (x + y)
  | _, _ => NaN
  end.

(** [a > c]: false when [a] is NaN. *)
Definition gt (a : Number) (c : Z) : bool :=
  match a with
  | Int x => c <? x
  | NaN => false
  end.

(** [v || 0] for an optional numeric property: undefined, 0 and NaN are
    falsy. *)
Definition orZero (v : option Number) : Number :=
  match v with
  | Some (Int x) => if x =? 0 then Int 0 else Int x
  | Some NaN => Int 0
  | None => Int 0
  end.

(** The first [n] code units of [fill] repeated; [rest] is what is left of
    the current copy. *)
Fixpoint fillTo (n : nat) (fill rest : string) : string :=
  match n with
  | O => EmptyString
  | S n' =>
      match rest with
      | String c r => String c (fillTo n' fill r)
      | EmptyString =>
          match fill with
          | String c r => String c (fillTo n' fill r)
          | EmptyString => EmptyString
          end
      end
  end.

(** [String.prototype.padStart(maxLength, fillString)]. *)
Definition padStart (s : string) (maxLength : nat) (fillString : string)
  : string :=
  let stringLength := String.length s in
  if (maxLength <=? stringLength)%nat then s
  else match fillString with
       | EmptyString => s
       | String _ _ =>
           (fillTo (maxLength - stringLength) fillString fillString ++ s)%string
       end.

(** [String.prototype.replace] with a global pattern of one literal code
    unit, as in [replace(/\//g, '-')]: every occurrence is replaced. *)
Fixpoint replaceAll (s : string) (c : ascii) (rep : string) : string :=
  match s with
  | EmptyString => EmptyString
  | String a s' =>
      if Ascii.eqb a c then (rep ++ replaceAll s' c rep)%string
      else String a (replaceAll s' c rep)
  end.

(** [Array.prototype.sort(cmp)].  The comparator result [v] puts its first
    argument after the second when [v > 0]; NaN counts as 0.  The sort is
    stable, so for a consistent comparator the result is the one stable
    ordering, which insertion from the right computes; for an inconsistent
    comparator the standard leaves the order to the implementation. *)
Definition sortsAfter (v : Number) : bool := gt v 0.

Fixpoint insert {A : Type} (cmp : A -> A -> Number) (x : A) (l : list A)
  : list A :=
  match l with
  | [] => [x]
  | y :: l' => if sortsAfter (cmp x y) then y :: insert cmp x l' else x :: l
  end.

Definition sort {A : Type} (cmp : A -> A -> Number) (l : list A) : list A :=
  fold_right (insert cmp) [] l.

End JSMore.

(** ** The calendar: days of a month *)

Definition DaysInMonth (leap : bool) (m : Z) : Z :=
  match m with
  | 1 => if leap then 29 else 28
  | 3 | 5 | 8 | 10 => 30
  | _ => 31
  end.

(** ** [src/utils/timeFormat.ts] *)

Module TimeFormat.

Record TimeFormatOptions : Type := mkTimeFormatOptions {
  includeSeconds : option bool;
  includeTimeZone : option bool;
  use12Hour : option bool;
  compact : option bool
}.

(** The default argument [{}]. *)
Definition noOptions : TimeFormatOptions :=
  mkTimeFormatOptions None None None None.

(** The properties of [Intl.DateTimeFormatOptions] the file sets. *)
Record DateTimeFormatOptions : Type := mkDateTimeFormatOptions {
  day : string;
  month : string;
  year : string;
  hour : string;
  minute : string;
  second : option string;
  hour12 : bool;
  timeZone : string
}.

(** A destructured property with a default value. *)
Definition withDefault (dflt : bool) (v : option bool) : bool :=
  match v with
  | Some b => b
  | None => dflt
  end.

Section WithIntl.

(** [Date.prototype.toLocaleString(locales, options)]: its output comes
    from the locale data of the host. *)
Variable toLocaleString : Date -> string -> DateTimeFormatOptions -> string.

Definition formatStandardTime (date : Date) (options : TimeFormatOptions)
  : string :=
  let includeSeconds := withDefault true (includeSeconds options) in
  let includeTimeZone := withDefault true (includeTimeZone options) in
  let use12Hour := withDefault false (use12Hour options) in
  let compact := withDefault false (compact options) in
  let formatOptions :=
    {| day := if compact then "2-digit" else "numeric";
       month := "short";
       year := "numeric";
       hour := "2-digit";
       minute := "2-digit";
       second := None;
       hour12 := use12Hour;
       timeZone := "Asia/Kolkata" |} in
  let formatOptions :=
    if includeSeconds then
      {| day := day formatOptions;
         month := month formatOptions;
         year := year formatOptions;
         hour := hour formatOptions;
         minute := minute formatOptions;
         second := Some "2-digit";
         hour12 := hour12 formatOptions;
         timeZone := timeZone formatOptions |}
    else formatOptions in
  let formatted := toLocaleString date "en-IN" formatOptions in
  let formatted := JSMore.replaceAll formatted "/" "-" in
  let formatted :=
    if includeTimeZone && negb (JSString.includes formatted "IST")
    then (formatted ++ " IST")%string
    else formatted in
  formatted.

Definition formatCompactTime (date : Date) : string :=
  formatStandardTime date
    (mkTimeFormatOptions (Some false) (Some false) None (Some true)).

Definition formatDetailedTime (date : Date) : string :=
  formatStandardTime date
    (mkTimeFormatOptions (Some true) (Some true) None None).

Definition formatRangeTime (date : Date) : string :=
  formatStandardTime date
    (mkTimeFormatOptions (Some false) (Some false) None None).

(** The second copy of [formatDetailedTime], the one that imports
    [TIMEZONE] from [./constants]: its options are fixed inside the
    function. *)
Definition formatDetailedTime' (date : Date) : string :=
  let options := mkTimeFormatOptions (Some true) (Some true) (Some false) (Some false) in
  let formatOptions :=
    {| day := if withDefault false (compact options) then "2-digit" else "numeric";
       month := "short";
       year := "numeric";
       hour := "2-digit";
       minute := "2-digit";
       second := None;
       hour12 := withDefault false (use12Hour options);
       timeZone := Constants.TIMEZONE |} in
  let formatOptions :=
    if withDefault false (includeSeconds options) then
      {| day := day formatOptions;
         month := month formatOptions;
         year := year formatOptions;
         hour := hour formatOptions;
         minute := minute formatOptions;
         second := Some "2-digit";
         hour12 := hour12 formatOptions;
         timeZone := timeZone formatOptions |}
    else formatOptions in
  let formatted := toLocaleString date "en-IN" formatOptions in
  let formatted := JSMore.replaceAll formatted "/" "-" in
  let formatted :=
    if withDefault false (includeTimeZone options)
       && negb (JSString.includes formatted "IST")
    then (formatted ++ " IST")%string
    else formatted in
  formatted.

End WithIntl.

(** Lines 92-99: the chart x-axis label, from the local fields of the
    Date. *)
Definition formatChartTime (h : Host) (date : Date) : string :=
  let day := JSMore.padStart (Num.toString (DateObj.getDate h date)) 2 "0" in
  let month :=
    JSMore.padStart
      (Num.toString (JSMore.add (DateObj.getMonth h date) (Int 1))) 2 "0" in
  let hours := JSMore.padStart (Num.toString (DateObj.getHours h date)) 2 "0" in
  let minutes :=
    JSMore.padStart (Num.toString (DateObj.getMinutes h date)) 2 "0" in
  (day ++ "/" ++ month ++ " " ++ hours ++ ":" ++ minutes)%string.

(** Two digits, zero-padded: what [formatChartTime] prints for a field. *)
Definition twoDigits (n : Z) : string :=
  JSMore.padStart (Num.toString (Int n)) 2 "0".

End TimeFormat.

(** ** [TrafficGridCell]: the severity of a cell *)

Module TrafficGridCell.

Definition getSeverityClass (yellow red darkRed : Number) : string :=
  if JSMore.gt darkRed 0 then "severity-dark-red"
  else if JSMore.gt red 0 then "severity-red"
  else if JSMore.gt yellow 0 then "severity-yellow"
  else "severity-green".

Definition getSeverityLabel (yellow red darkRed : Number) : string :=
  if JSMore.gt darkRed 0 then "Critical"
  else if JSMore.gt red 0 then "High"
  else if JSMore.gt yellow 0 then "Moderate"
  else "Normal".

Definition getSeverityColor (yellow red darkRed : Number) : string :=
  if JSMore.gt darkRed 0 then "text-traffic-dark-red"
  else if JSMore.gt red 0 then "text-traffic-red"
  else if JSMore.gt yellow 0 then "text-traffic-yellow"
  else "text-traffic-green".

(** Line 115: [yellow + red + darkRed]. *)
Definition total (yellow red darkRed : Number) : Number :=
  JSMore.add (JSMore.add yellow red) darkRed.

End TrafficGridCell.

(** ** [processChartData]: the chart points of a list of records *)

Module ChartData.

(** The record type [TrafficData] is declared in a file that is not among
    the sources; the fields are the ones the components read. *)
Record TrafficData : Type := mkTrafficData {
  x : Number;
  y : Number;
  yellow : Number;
  red : Number;
  dark_red : Number;
  ts : string;
  latest_severity : option Number
}.

(** The values a chart point holds. *)
Inductive Value : Type :=
| VDate : Date -> Value
| VNum : Number -> Value
| VUndefined : Value.

(** An object literal: its own properties in creation order. *)
Definition Obj : Type := list (string * Value).

(** [obj[key]] on own properties, which is what the keys of a metric
    name; the prototype chain is not followed. *)
Fixpoint getProp (obj : Obj) (key : string) : Value :=
  match obj with
  | [] => VUndefined
  | (k, v) :: obj' => if String.eqb k key then v else getProp obj' key
  end.

(** Defining [key] in a literal: a repeated key keeps its place and takes
    the new value. *)
Fixpoint setProp (obj : Obj) (key : string) (v : Value) : Obj :=
  match obj with
  | [] => [(key, v)]
  | (k, w) :: obj' =>
      if String.eqb k key then (k, v) :: obj'
      else (k, w) :: setProp obj' key v
  end.

Section WithTotals.

(** [calculateTotalTraffic] comes from a file that is not among the
    sources. *)
Variable calculateTotalTraffic : TrafficData -> Number.
Variable h : Host.

(** The comparator of line 11. *)
Definition byTimestamp (a b : TrafficData) : Number :=
  let dateA := fst (TimeUtils.parseISTTimestamp h (Some (ts a))) in
  let dateB := fst (TimeUtils.parseISTTimestamp h (Some (ts b))) in
  Num.sub (getTime dateA) (getTime dateB).

(** The callback of [map], lines 17-38. *)
Definition toPoint (selectedMetric : string) (point : TrafficData) : Obj :=
  let timestamp := fst (TimeUtils.parseISTTimestamp h (Some (ts point))) in
  let total := calculateTotalTraffic point in
  let baseData : Obj :=
    [ ("timestamp", VDate timestamp);
      ("yellow", VNum (yellow point));
      ("red", VNum (red point));
      ("dark_red", VNum (dark_red point));
      ("total", VNum total);
      ("latest_severity", VNum (JSMore.orZero (latest_severity point))) ] in
  if String.eqb selectedMetric "all" then baseData
  else
    setProp [("timestamp", VDate timestamp)]
      selectedMetric (getProp baseData selectedMetric).

Definition processChartData (data : list TrafficData) (selectedMetric : string)
  : list Obj :=
  let sortedData := JSMore.sort byTimestamp data in
  map (toPoint selectedMetric) sortedData.

End WithTotals.

(** The time value a chart point carries. *)
Definition pointTime (p : Obj) : Number :=
  match getProp p "timestamp" with
  | VDate d => getTime d
  | _ => NaN
  end.


End ChartData.



(** The sort key of a record: the time value of its parsed timestamp. *)
Definition recordTime (h : Host) (d : ChartData.TrafficData) : Number :=
  getTime (fst (TimeUtils.parseISTTimestamp h (Some (ChartData.ts d)))).

(** ** [Date.prototype.toISOString] and the mock records of the page *)

Module ISOString.

(** [v] in decimal, zero-padded to [n] code units. *)
Definition pad (n : nat) (v : Z) : string :=
  JSMore.padStart (Num.toString (Int v)) n "0".

(** The year: four digits from 0 to 9999, else a sign and six digits. *)
Definition yearString (y : Z) : string :=
  if (0 <=? y) && (y <=? 9999) then pad 4 y
  else ((if (y <? 0)%Z then "-" else "+") ++ pad 6 (Z.abs y))%string.

(** [toISOString] throws a RangeError on an invalid Date: [None]. *)
Definition toISOString (date : Date) : option string :=
  match getTime date with
  | NaN => None
  | Int t =>
      Some (yearString (DateOps.YearFromTime t)
              ++ "-" ++ pad 2 (DateOps.MonthFromTime t + 1)
              ++ "-" ++ pad 2 (DateOps.DateFromTime t)
              ++ "T" ++ pad 2 (DateOps.HourFromTime t)
              ++ ":" ++ pad 2 (DateOps.MinFromTime t)
              ++ ":" ++ pad 2 (DateOps.SecFromTime t)
              ++ "." ++ pad 3 (DateOps.msFromTime t)
              ++ "Z")%string
  end.

(** [TrafficGridCell], line 152: the cell reads the stamp of its record,
    which the page writes with [new Date().toISOString()], back with
    [new Date(timestamp)]. *)
Definition cellDate (h : Host) (timestamp : string) : Date :=
  DateObj.ofString h timestamp.

Definition isDigit (c : ascii) : bool :=
  match DateString.digitVal c with
  | Some _ => true
  | None => false
  end.

Fixpoint allDigits (s : string) : bool :=
  match s with
  | EmptyString => true
  | String c s' => isDigit c && allDigits s'
  end.

(** Does [s] consist of exactly [n] digits that read back as [v]? *)
Definition readsBack (n : nat) (v : Z) (s : string) : bool :=
  allDigits s && Nat.eqb (String.length s) n &&
  match DateString.readDigits n s 0 with
  | Some (w, EmptyString) => w =? v
  | _ => false
  end.

End ISOString.


(** ** [getChartLines]: the lines drawn for a metric *)

Module ChartLines.

Record ChartLine : Type := mkChartLine {
  dataKey : string;
  stroke : option string;
  name : string
}.

(** [a || b] on optional strings: undefined and the empty string are
    falsy. *)
Definition orElse (a : option string) (b : option string) : option string :=
  match a with
  | Some EmptyString => b
  | Some s => Some s
  | None => b
  end.

Definition orElseString (a : option string) (b : string) : string :=
  match a with
  | Some EmptyString => b
  | Some s => s
  | None => b
  end.

Section WithConfig.

(** [CHART_COLORS] and [METRIC_CONFIG] come from a file that is not among
    the sources: the colours as a lookup by key, the configuration as its
    entries' [value] and [label]. *)
Variable CHART_COLORS : string -> option string.
Variable METRIC_CONFIG : list (string * option string).

Definition getChartLines (selectedMetric : string) : list ChartLine :=
  if String.eqb selectedMetric "all" then
    [ {| dataKey := "yellow"; stroke := CHART_COLORS "yellow"; name := "Yellow" |};
      {| dataKey := "red"; stroke := CHART_COLORS "red"; name := "Red" |};
      {| dataKey := "dark_red"; stroke := CHART_COLORS "dark_red";
         name := "Dark Red" |};
      {| dataKey := "total"; stroke := CHART_COLORS "total"; name := "Total" |};
      {| dataKey := "latest_severity";
         stroke := CHART_COLORS "latest_severity";
         name := "Latest Severity" |} ]
  else
    let metric :=
      find (fun m => String.eqb (fst m) selectedMetric) METRIC_CONFIG in
    [ {| dataKey := selectedMetric;
         stroke := orElse (CHART_COLORS selectedMetric) (CHART_COLORS "total");
         name :=
           orElseString
             (match metric with
              | Some m => snd m
              | None => None
              end)
             selectedMetric |} ].

End WithConfig.

(** The metrics a full point holds a number for. *)
Definition numericKeys : list string :=
  ["yellow"; "red"; "dark_red"; "total"; "latest_severity"].

End ChartLines.

(** ** Hosts in other zones *)

(** A host on UTC. *)
Definition utcHost (now : Z) : Host :=
  {| LocalTZA := fun _ _ => 0; currentTime := now |}.



(** * Properties *)

(** ** Strings *)

Section StringFacts.

Import JSString.

Lemma startsWith_app (s t pat : string) :
  startsWith s pat = true -> startsWith (s ++ t) pat = true.
Proof.
  revert s; induction pat as [|p pat IH]; intros [|c s]; simpl; try congruence.
  - destruct t; reflexivity.
  - intros H; apply andb_true_iff in H as [Hc Hs].
    rewrite Hc; simpl; auto.
Qed.

Lemma includes_cons (c : ascii) (s pat : string) :
  includes (String c s) pat = startsWith (String c s) pat || includes s pat.
Proof. reflexivity. Qed.

Lemma includes_app (s t pat : string) :
  includes s pat = true -> includes (s ++ t) pat = true.
Proof.
  induction s as [|c s IH].
  - simpl. rewrite orb_false_r.
    destruct pat; [|discriminate].
    destruct t; reflexivity.
  - change (String c s ++ t)%string with (String c (s ++ t)).
    rewrite !includes_cons.
    intros H; apply orb_true_iff in H as [H|H].
    + change (String c (s ++ t)) with (String c s ++ t)%string.
      rewrite (startsWith_app _ _ _ H); reflexivity.
    + rewrite (IH H); apply orb_true_r.
Qed.

Lemma endsWith_app (s pat : string) : endsWith (s ++ pat) pat = true.
Proof.
  induction s as [|c s IH]; simpl.
  - destruct pat; simpl.
    + reflexivity.
    + rewrite Ascii.eqb_refl, String.eqb_refl; reflexivity.
  - rewrite IH; apply orb_true_r.
Qed.

Lemma length_app_one (s : string) (c : ascii) :
  String.length (s ++ String c EmptyString) = S (String.length s).
Proof. induction s; simpl; congruence. Qed.

Lemma substring_app_one (s : string) (c : ascii) :
  String.substring 0 (String.length s) (s ++ String c EmptyString) = s.
Proof. induction s; simpl; congruence. Qed.

(** [slice(0, -1)] removes the last code unit. *)
Lemma slice_drop_last (s : string) (c : ascii) :
  slice (s ++ String c EmptyString) 0 (-1) = s.
Proof.
  unfold slice.
  rewrite length_app_one.
  change (0 <? 0) with false; change (-1 <? 0) with true; cbv iota.
  replace (Z.min 0 (Z.of_nat (S (String.length s)))) with 0 by lia.
  replace (Z.max (Z.of_nat (S (String.length s)) + -1) 0)
    with (Z.of_nat (String.length s)) by lia.
  replace (Z.max (Z.of_nat (String.length s) - 0) 0)
    with (Z.of_nat (String.length s)) by lia.
  rewrite Nat2Z.id.
  apply substring_app_one.
Qed.

Lemma includes_nonempty (s pat : string) :
  includes s pat = true -> pat <> EmptyString -> s <> EmptyString.
Proof.
  intros H Hp ->. destruct pat; [congruence | discriminate].
Qed.

Lemma append_assoc (a b c : string) :
  ((a ++ b) ++ c = a ++ (b ++ c))%string.
Proof. induction a; cbn [append]; congruence. Qed.

Lemma startsWith_empty (s : string) : startsWith s EmptyString = true.
Proof. destruct s; reflexivity. Qed.

Lemma startsWith_refl (s : string) : startsWith s s = true.
Proof.
  induction s as [|c s IH]; [reflexivity|].
  cbn [startsWith]. rewrite Ascii.eqb_refl, IH. reflexivity.
Qed.

(** A pattern of one code unit. *)
Lemma includes_char_cons (a z : ascii) (s : string) :
  includes (String a s) (String z EmptyString)
  = Ascii.eqb a z || includes s (String z EmptyString).
Proof.
  rewrite includes_cons. cbn [startsWith].
  rewrite startsWith_empty, andb_true_r. reflexivity.
Qed.

Lemma includes_char_app (l r : string) (z : ascii) :
  includes (l ++ r) (String z EmptyString)
  = includes l (String z EmptyString) || includes r (String z EmptyString).
Proof.
  induction l as [|a l IH]; [reflexivity|].
  change (String a l ++ r)%string with (String a (l ++ r)).
  rewrite !includes_char_cons, IH. apply orb_assoc.
Qed.

Lemma endsWith_cons (c : ascii) (s pat : string) :
  endsWith (String c s) pat = String.eqb (String c s) pat || endsWith s pat.
Proof. reflexivity. Qed.

Lemma endsWith_includes (s pat : string) :
  endsWith s pat = true -> includes s pat = true.
Proof.
  induction s as [|c s IH].
  - destruct pat; [reflexivity | discriminate].
  - rewrite endsWith_cons, includes_cons.
    intros H; apply orb_true_iff in H as [H|H].
    + apply String.eqb_eq in H; subst pat.
      rewrite startsWith_refl. reflexivity.
    + rewrite (IH H). apply orb_true_r.
Qed.

(** Whether a string ends with one given code unit is decided by any
    non-empty suffix of it. *)
Lemma endsWith_char_app (l r : string) (a z : ascii) :
  endsWith (l ++ String a r) (String z EmptyString)
  = endsWith (String a r) (String z EmptyString).
Proof.
  induction l as [|b l IH]; [reflexivity|].
  change (String b l ++ String a r)%string with (String b (l ++ String a r)).
  rewrite endsWith_cons, IH.
  replace (String.eqb (String b (l ++ String a r)) (String z EmptyString))
    with false; [reflexivity|].
  symmetry. cbn [String.eqb].
  destruct (Ascii.eqb b z); [|reflexivity].
  destruct l; reflexivity.
Qed.

End StringFacts.

(** ** The calendar of the abstract operations *)

Section CalendarFacts.

Import DateOps.

Lemma DayFromYear_epoch : DayFromYear 1970 = 0.
Proof. reflexivity. Qed.

(** Consecutive years start [DaysInYear] days apart. *)
Lemma DayFromYear_succ (y : Z) :
  DayFromYear (y + 1) = DayFromYear y + DaysInYear y.
Proof.
  unfold DayFromYear, DaysInYear, isLeap.
  destruct (Z.eqb_spec (y mod 4) 0), (Z.eqb_spec (y mod 100) 0),
    (Z.eqb_spec (y mod 400) 0); cbn [andb orb negb];
    Z.div_mod_to_equations; lia.
Qed.

(** [YearFromTime t] is the year whose days contain [t]. *)
Lemma YearFromTime_spec (t : Z) :
  DayFromYear (YearFromTime t) <= Day t < DayFromYear (YearFromTime t + 1).
Proof.
  unfold YearFromTime.
  generalize (Day t); intros d.
  set (y0 := 1970 + d * 400 / 146097).
  assert (H0 : 146097 * (y0 - 1970) <= 400 * d < 146097 * (y0 - 1970) + 146097)
    by (subst y0; Z.div_mod_to_equations; lia).
  clearbody y0.
  assert (B : forall y,
             146097 * (y - 1970) - 608 <= 400 * DayFromYear y
             <= 146097 * (y - 1970) + 596).
  { intros y. unfold DayFromYear. Z.div_mod_to_equations. lia. }
  cbn [yearDown yearUp].
  pose proof (B y0). pose proof (B (y0 - 1)). pose proof (B (y0 - 1 - 1)).
  pose proof (B (y0 + 1)). pose proof (B (y0 + 1 + 1)).
  pose proof (B (y0 - 1 + 1)). pose proof (B (y0 - 1 + 1 + 1)).
  repeat match goal with
         | |- context [?a <? ?b] => destruct (Z.ltb_spec a b)
         | |- context [?a <=? ?b] => destruct (Z.leb_spec a b)
         end; try lia.
Qed.

End CalendarFacts.

(** ** The Date constructor on well-formed strings *)

Section ParseFacts.

Import DateOps DateString.
Variable h : Host.

Lemma TimeClip_in_range (x : Z) :
  Z.abs x <= maxTime -> TimeClip (Int x) = Int x.
Proof.
  intros Hx; unfold TimeClip.
  destruct (Z.ltb_spec maxTime (Z.abs x)); [lia | reflexivity].
Qed.

Lemma TimeClip_out_of_range (x : Z) :
  maxTime < Z.abs x -> TimeClip (Int x) = NaN.
Proof.
  intros Hx; unfold TimeClip.
  destruct (Z.ltb_spec maxTime (Z.abs x)); [reflexivity | lia].
Qed.

(** Without an offset the clock fields are local time of the host. *)
Lemma parse_wallClock (s : string) (d : DateFields) (t : TimeFields) :
  wallClock s = Some (d, t) ->
  parse h s = TimeClip (Int (UTC h (civilTime d t))).
Proof.
  unfold wallClock, parse.
  destruct (parseDateTimeString s) as [[d' [t'|]]|]; try discriminate.
  destruct (offset t') eqn:Hoff; try discriminate.
  intros [= <- <-].
  unfold timeValue; cbn [ptime pdate]; rewrite Hoff; reflexivity.
Qed.

(** With an offset the fields are read in that offset, whatever the host. *)
Lemma parse_explicitOffset (s : string) (d : DateFields) (t : TimeFields)
      (off : Z) :
  explicitOffset s = Some (d, t, off) ->
  parse h s = TimeClip (Int (civilTime d t - off * msPerMinute)).
Proof.
  unfold explicitOffset, parse.
  destruct (parseDateTimeString s) as [[d' [t'|]]|]; try discriminate.
  destruct (offset t') eqn:Hoff; try discriminate.
  intros [= <- <- <-].
  unfold timeValue; cbn [ptime pdate]; rewrite Hoff; reflexivity.
Qed.

End ParseFacts.

(** ** The branches of [parseISTTimestamp] *)

Section ParseISTBranches.

Import JSString TimeUtils.
Variable h : Host.

Lemma includes_T_nonempty (ts : string) :
  includes ts "T" = true -> exists c r, ts = String c r.
Proof. destruct ts as [|c r]; [discriminate | eauto]. Qed.

(** Lines 11-14 and 30-32: the marker is removed and the Date constructor
    reads the rest; nothing is added or subtracted afterwards. *)
Lemma parseISTTimestamp_zulu (ts : string) :
  includes ts "T" = true -> endsWith ts "Z" = true ->
  parseISTTimestamp h (Some ts) = (DateObj.ofString h (slice ts 0 (-1)), []).
Proof.
  intros HT HZ.
  destruct (includes_T_nonempty ts HT) as (c & r & ->).
  unfold parseISTTimestamp, tryBody.
  rewrite HT, HZ; reflexivity.
Qed.

(** Lines 15-17 and 33-39: the Date constructor reads the string as it is
    and 5.5 hours are subtracted from its time value. *)
Lemma parseISTTimestamp_no_marker (ts : string) :
  includes ts "T" = true -> endsWith ts "Z" = false ->
  parseISTTimestamp h (Some ts) =
    (DateObj.ofNumber
       (Num.sub (getTime (DateObj.ofString h ts)) (Int istOffset)), []).
Proof.
  intros HT HZ.
  destruct (includes_T_nonempty ts HT) as (c & r & ->).
  unfold parseISTTimestamp, tryBody.
  rewrite HT, HZ; reflexivity.
Qed.

(** Lines 19-22 and 42: without a "T" the first space becomes the
    separator and the Date is returned as constructed. *)
Lemma parseISTTimestamp_space (ts : string) :
  includes ts "T" = false -> ts <> EmptyString ->
  parseISTTimestamp h (Some ts) =
    (DateObj.ofString h (replace ts " " "T"), []).
Proof.
  intros HT Hne.
  destruct ts as [|c r]; [congruence|].
  unfold parseISTTimestamp, tryBody.
  rewrite HT.
  destruct (endsWith (String c r) "Z"); reflexivity.
Qed.

(** No statement of the [try] block throws: [catch] is never entered. *)
Lemma tryBody_normal (ts : string) : exists d, tryBody h ts = Normal d.
Proof.
  unfold tryBody.
  destruct (includes ts "T"), (endsWith ts "Z"); cbn; eauto.
Qed.

Lemma parseISTTimestamp_console_silent (ts : option string) :
  snd (parseISTTimestamp h ts) = [].
Proof.
  destruct ts as [[|c r]|]; try reflexivity.
  unfold parseISTTimestamp.
  destruct (tryBody_normal (String c r)) as [d ->]; reflexivity.
Qed.

Lemma parseISTTimestamp_null :
  parseISTTimestamp h None = (DateObj.now h, []) /\
  parseISTTimestamp h (Some EmptyString) = (DateObj.now h, []).
Proof. split; reflexivity. Qed.

End ParseISTBranches.

(** ** Bounds on the fields the parser accepts *)

Section ParserBounds.

Import DateOps DateString.

Lemma digitVal_bounds (c : ascii) (d : Z) :
  digitVal c = Some d -> 0 <= d <= 9.
Proof.
  unfold digitVal.
  destruct (Nat.leb_spec 48 (nat_of_ascii c)); cbn [andb]; try discriminate.
  destruct (Nat.leb_spec (nat_of_ascii c) 57); try discriminate.
  intros [= <-]; lia.
Qed.

Lemma readDigits_bounds (n : nat) :
  forall (s : string) (acc v : Z) (r : string),
    readDigits n s acc = Some (v, r) ->
    acc * 10 ^ Z.of_nat n <= v < (acc + 1) * 10 ^ Z.of_nat n.
Proof.
  induction n as [|n IH]; intros s acc v r.
  - cbn. intros [= <- <-]; lia.
  - cbn [readDigits]. destruct s as [|c s]; [discriminate|].
    destruct (digitVal c) as [d|] eqn:Hd; cbn [bind]; [|discriminate].
    intros H. apply IH in H. apply digitVal_bounds in Hd.
    rewrite Nat2Z.inj_succ, Z.pow_succ_r by lia.
    assert (0 < 10 ^ Z.of_nat n) by (apply Z.pow_pos_nonneg; lia).
    nia.
Qed.

Lemma readDigits2_bounds (s r : string) (v : Z) :
  readDigits 2 s 0 = Some (v, r) -> 0 <= v <= 99.
Proof. intros H; apply readDigits_bounds in H; cbn in H; lia. Qed.

Lemma readDigits3_bounds (s r : string) (v : Z) :
  readDigits 3 s 0 = Some (v, r) -> 0 <= v <= 999.
Proof. intros H; apply readDigits_bounds in H; cbn in H; lia. Qed.

Lemma parseSeconds_bounds (s r : string) (ss ms : Z) :
  parseSeconds s = Some (ss, ms, r) -> 0 <= ss <= 99 /\ 0 <= ms <= 999.
Proof.
  unfold parseSeconds.
  destruct (expect ":" s) as [r0|]; [|intros [= <- <- <-]; lia].
  destruct (readDigits 2 r0 0) as [[ss' r1]|] eqn:Hss; cbn [bind];
    [|discriminate].
  apply readDigits2_bounds in Hss.
  destruct (expect "." r1) as [r2|]; [|intros [= <- <- <-]; lia].
  destruct (readDigits 3 r2 0) as [[ms' r3]|] eqn:Hms; cbn [bind];
    [|discriminate].
  apply readDigits3_bounds in Hms.
  intros [= <- <- <-]; lia.
Qed.

(** Clock fields of an accepted time part: a time of day, or exactly
    24:00:00.000. *)
Lemma parseTimePart_bounds (s : string) (t : TimeFields) :
  parseTimePart s = Some t ->
  0 <= minute t <= 59 /\ 0 <= second t <= 59 /\ 0 <= millisecond t <= 999 /\
  (0 <= hour t <= 23 \/
   (hour t = 24 /\ minute t = 0 /\ second t = 0 /\ millisecond t = 0)).
Proof.
  unfold parseTimePart.
  destruct (readDigits 2 s 0) as [[hh r]|] eqn:Hhh; cbn [bind]; [|discriminate].
  destruct (expect ":" r) as [r1|]; cbn [bind]; [|discriminate].
  destruct (readDigits 2 r1 0) as [[mm r2]|] eqn:Hmm; cbn [bind]; [|discriminate].
  destruct (parseSeconds r2) as [[[ss ms] r3]|] eqn:Hss; cbn [bind]; [|discriminate].
  destruct (parseOffset r3) as [off|]; cbn [bind]; [|discriminate].
  apply readDigits2_bounds in Hhh, Hmm.
  apply parseSeconds_bounds in Hss.
  destruct ((hh <=? 24) && (mm <=? 59) && (ss <=? 59)) eqn:G1; cbn [guard bind];
    [|discriminate].
  destruct ((hh <? 24) || ((mm =? 0) && (ss =? 0) && (ms =? 0))) eqn:G2;
    cbn [guard bind]; [|discriminate].
  intros [= <-]; cbn [hour minute second millisecond].
  apply andb_true_iff in G1 as [G1 G1c]; apply andb_true_iff in G1 as [G1a G1b].
  apply Z.leb_le in G1a, G1b, G1c.
  apply orb_true_iff in G2 as [G2|G2].
  - apply Z.ltb_lt in G2. lia.
  - apply andb_true_iff in G2 as [G2 G2c]; apply andb_true_iff in G2 as [G2a G2b].
    apply Z.eqb_eq in G2a, G2b, G2c. lia.
Qed.

Lemma wallClock_bounds (s : string) (d : DateFields) (t : TimeFields) :
  wallClock s = Some (d, t) ->
  0 <= minute t <= 59 /\ 0 <= second t <= 59 /\ 0 <= millisecond t <= 999 /\
  (0 <= hour t <= 23 \/
   (hour t = 24 /\ minute t = 0 /\ second t = 0 /\ millisecond t = 0)).
Proof.
  unfold wallClock, parseDateTimeString.
  destruct (splitAt "T" s) as [[ds ts]|].
  - destruct (parseDatePart ds) as [d'|]; cbn [bind]; [|discriminate].
    destruct (parseTimePart ts) as [t'|] eqn:Ht; cbn [bind]; [|discriminate].
    destruct (offset t'); [discriminate|].
    intros [= <- <-]. eapply parseTimePart_bounds; eauto.
  - destruct (parseDatePart s) as [d'|]; cbn [bind]; discriminate.
Qed.

(** Reading a clock back from the calendar count of its fields. *)
Lemma HourFromTime_civil (dayNo hh mm ss ms : Z) :
  0 <= hh <= 23 -> 0 <= mm <= 59 -> 0 <= ss <= 59 -> 0 <= ms <= 999 ->
  HourFromTime (MakeDate dayNo (MakeTime hh mm ss ms)) = hh.
Proof.
  intros. unfold HourFromTime, MakeDate, MakeTime,
    msPerDay, msPerHour, msPerMinute, msPerSecond.
  replace (dayNo * 86400000 + (hh * 3600000 + mm * 60000 + ss * 1000 + ms))
    with ((dayNo * 24 + hh) * 3600000 + (mm * 60000 + ss * 1000 + ms)) by ring.
  rewrite Z.div_add_l, (Z.div_small (mm * 60000 + ss * 1000 + ms)) by lia.
  rewrite Z.add_0_r, Z.add_comm, Z.mod_add by lia.
  apply Z.mod_small; lia.
Qed.

Lemma MinFromTime_civil (dayNo hh mm ss ms : Z) :
  0 <= mm <= 59 -> 0 <= ss <= 59 -> 0 <= ms <= 999 ->
  MinFromTime (MakeDate dayNo (MakeTime hh mm ss ms)) = mm.
Proof.
  intros. unfold MinFromTime, MakeDate, MakeTime,
    msPerDay, msPerHour, msPerMinute, msPerSecond.
  replace (dayNo * 86400000 + (hh * 3600000 + mm * 60000 + ss * 1000 + ms))
    with (((dayNo * 24 + hh) * 60 + mm) * 60000 + (ss * 1000 + ms)) by ring.
  rewrite Z.div_add_l, (Z.div_small (ss * 1000 + ms)) by lia.
  rewrite Z.add_0_r, Z.add_comm, Z.mod_add by lia.
  apply Z.mod_small; lia.
Qed.

(** 24:00:00.000 reads as midnight. *)
Lemma HourFromTime_civil_24 (dayNo : Z) :
  HourFromTime (MakeDate dayNo (MakeTime 24 0 0 0)) = 0.
Proof.
  unfold HourFromTime, MakeDate, MakeTime,
    msPerDay, msPerHour, msPerMinute, msPerSecond.
  replace (dayNo * 86400000 + (24 * 3600000 + 0 * 60000 + 0 * 1000 + 0))
    with ((dayNo + 1) * 24 * 3600000) by ring.
  rewrite Z.div_mul by lia. apply Z.mod_mul; lia.
Qed.

(** Date fields of an accepted date part. *)
Lemma parseDatePart_bounds (s : string) (d : DateFields) :
  parseDatePart s = Some d -> 1 <= month d <= 12 /\ 1 <= day d <= 31.
Proof.
  unfold parseDatePart.
  destruct (parseYear s) as [[y r]|]; cbn [bind]; [|discriminate].
  destruct (atEnd r); [intros [= <-]; cbn; lia|].
  destruct (expect "-" r) as [r1|]; cbn [bind]; [|discriminate].
  destruct (readDigits 2 r1 0) as [[m r2]|]; cbn [bind]; [|discriminate].
  destruct ((1 <=? m) && (m <=? 12)) eqn:Gm; cbn [guard bind]; [|discriminate].
  apply andb_true_iff in Gm as [Gm1 Gm2]; apply Z.leb_le in Gm1, Gm2.
  destruct (atEnd r2); [intros [= <-]; cbn; lia|].
  destruct (expect "-" r2) as [r3|]; cbn [bind]; [|discriminate].
  destruct (readDigits 2 r3 0) as [[dd r4]|]; cbn [bind]; [|discriminate].
  destruct ((1 <=? dd) && (dd <=? 31)) eqn:Gd; cbn [guard bind]; [|discriminate].
  apply andb_true_iff in Gd as [Gd1 Gd2]; apply Z.leb_le in Gd1, Gd2.
  destruct (atEnd r4); cbn [bind]; [|discriminate].
  intros [= <-]; cbn; lia.
Qed.

Lemma wallClock_date_bounds (s : string) (d : DateFields) (t : TimeFields) :
  wallClock s = Some (d, t) -> 1 <= month d <= 12 /\ 1 <= day d <= 31.
Proof.
  unfold wallClock, parseDateTimeString.
  destruct (splitAt "T" s) as [[ds ts]|].
  - destruct (parseDatePart ds) as [d'|] eqn:Hd; cbn [bind]; [|discriminate].
    destruct (parseTimePart ts) as [t'|]; cbn [bind]; [|discriminate].
    destruct (offset t'); [discriminate|].
    intros [= <- <-]. eapply parseDatePart_bounds; eauto.
  - destruct (parseDatePart s) as [d'|]; cbn [bind]; discriminate.
Qed.

Lemma DayFromYear_bounds (y : Z) :
  0 <= y <= 9999 -> -719528 <= DayFromYear y <= 2932896.
Proof. intros. unfold DayFromYear. Z.div_mod_to_equations. lia. Qed.

Lemma monthStart_bounds (leap : bool) (m : Z) : 0 <= monthStart leap m <= 335.
Proof.
  unfold monthStart.
  destruct leap; destruct m as [|p|p]; try lia;
    repeat (destruct p as [p|p|]; try lia).
Qed.

(** With a four-digit year the fields are far inside the range of time
    values, whatever zone adjustment of less than a day is applied. *)
Lemma wallClock_fourDigitYear_in_range
      (s : string) (d : DateFields) (t : TimeFields) (adj : Z) :
  wallClock s = Some (d, t) ->
  0 <= year d <= 9999 ->
  Z.abs adj <= msPerDay ->
  Z.abs (civilTime d t - adj) <= maxTime.
Proof.
  intros Hw Hy Hadj.
  destruct (wallClock_bounds _ _ _ Hw) as (Hm & Hs & Hms & Hh).
  destruct (wallClock_date_bounds _ _ _ Hw) as (Hmo & Hd).
  unfold civilTime, civilDay, MakeDate, MakeTime, MakeDay.
  rewrite (Z.div_small (month d - 1)), (Z.mod_small (month d - 1)) by lia.
  rewrite Z.add_0_r.
  pose proof (DayFromYear_bounds (year d) Hy).
  pose proof (monthStart_bounds (isLeap (year d)) (month d - 1)).
  unfold maxTime, msPerDay, msPerHour, msPerMinute, msPerSecond in *.
  lia.
Qed.

End ParserBounds.

(** ** The shape of the strings the parser accepts *)

Section ParserShape.

Import JSString DateString.

Lemma splitAt_spec (c : ascii) (s l r : string) :
  splitAt c s = Some (l, r) -> s = (l ++ String c r)%string.
Proof.
  revert l r; induction s as [|a s IH]; intros l r; cbn [splitAt].
  - discriminate.
  - destruct (Ascii.eqb_spec a c) as [->|_].
    + intros [= <- <-]; reflexivity.
    + destruct (splitAt c s) as [[l' r']|]; cbn [bind]; [|discriminate].
      intros [= <- <-]. rewrite (IH l' r' eq_refl). reflexivity.
Qed.

Lemma expect_spec (c : ascii) (s r : string) :
  expect c s = Some r -> s = String c r.
Proof.
  destruct s as [|a s]; cbn [expect]; [discriminate|].
  destruct (Ascii.eqb_spec a c) as [->|_]; [|discriminate].
  intros [= <-]; reflexivity.
Qed.

Lemma atEnd_spec (s : string) (u : unit) : atEnd s = Some u -> s = EmptyString.
Proof. destruct s; [reflexivity | discriminate]. Qed.

Lemma digit_is_not_Z (c : ascii) (d : Z) :
  digitVal c = Some d -> Ascii.eqb c "Z" = false.
Proof.
  intros Hd. destruct (Ascii.eqb_spec c "Z") as [->|_]; [|reflexivity].
  vm_compute in Hd; discriminate.
Qed.

(** Digits are consumed from the front, and none of them is a "Z". *)
Lemma readDigits_prefix (n : nat) :
  forall (s : string) (acc v : Z) (r : string),
    readDigits n s acc = Some (v, r) ->
    exists p : string, s = (p ++ r)%string /\ includes p "Z" = false.
Proof.
  induction n as [|n IH]; intros s acc v r; cbn [readDigits].
  - intros [= <- <-]. exists EmptyString; split; reflexivity.
  - destruct s as [|c s]; [discriminate|].
    destruct (digitVal c) as [d|] eqn:Hd; cbn [bind]; [|discriminate].
    intros H. destruct (IH _ _ _ _ H) as (p & -> & Hp).
    exists (String c p); split; [reflexivity|].
    rewrite includes_char_cons, (digit_is_not_Z c d Hd), Hp. reflexivity.
Qed.

Lemma parseSeconds_prefix (s r : string) (ss ms : Z) :
  parseSeconds s = Some (ss, ms, r) ->
  exists p : string, s = (p ++ r)%string /\ includes p "Z" = false.
Proof.
  unfold parseSeconds.
  destruct (expect ":" s) as [r0|] eqn:E0;
    [|intros [= <- <- <-]; exists EmptyString; split; reflexivity].
  apply expect_spec in E0; subst s.
  destruct (readDigits 2 r0 0) as [[ss' r1]|] eqn:Hss; cbn [bind];
    [|discriminate].
  destruct (readDigits_prefix _ _ _ _ _ Hss) as (p1 & -> & Hp1).
  destruct (expect "." r1) as [r2|] eqn:E1.
  - apply expect_spec in E1; subst r1.
    destruct (readDigits 3 r2 0) as [[ms' r3]|] eqn:Hms; cbn [bind];
      [|discriminate].
    destruct (readDigits_prefix _ _ _ _ _ Hms) as (p2 & -> & Hp2).
    intros [= <- <- <-].
    exists (String ":" (p1 ++ String "." p2)); split.
    + cbn [append]. rewrite append_assoc. reflexivity.
    + rewrite includes_char_cons, includes_char_app, includes_char_cons.
      rewrite Hp1, Hp2. reflexivity.
  - intros [= <- <- <-].
    exists (String ":" p1); split; [reflexivity|].
    rewrite includes_char_cons, Hp1. reflexivity.
Qed.

(** Only the end of the string gives an absent offset. *)
Lemma parseOffset_absent (s : string) :
  parseOffset s = Some None -> s = EmptyString.
Proof.
  unfold parseOffset, parseOffsetHHmm.
  destruct (atEnd s) as [u|] eqn:E; [intros _; eapply atEnd_spec; eauto|].
  destruct (expect "Z" s) as [r|].
  { destruct (atEnd r); cbn [bind]; discriminate. }
  assert (Hh : forall sign r,
             (bind (readDigits 2 r 0) (fun x =>
                let '(hh, r1) := x in
                bind (expect ":" r1) (fun r2 =>
                  bind (readDigits 2 r2 0) (fun x0 =>
                    let '(mm, r3) := x0 in
                    bind (guard ((hh <=? 23) && (mm <=? 59))) (fun _ =>
                      bind (atEnd r3) (fun _ =>
                        Some (Some (sign * (hh * 60 + mm)))))))))
             <> Some None).
  { intros sign r.
    destruct (readDigits 2 r 0) as [[hh r1]|]; cbn [bind]; [|discriminate].
    destruct (expect ":" r1) as [r2|]; cbn [bind]; [|discriminate].
    destruct (readDigits 2 r2 0) as [[mm r3]|]; cbn [bind]; [|discriminate].
    destruct (guard ((hh <=? 23) && (mm <=? 59))); cbn [bind]; [|discriminate].
    destruct (atEnd r3); cbn [bind]; discriminate. }
  destruct (expect "+" s) as [r|]; [intros H; destruct (Hh _ _ H)|].
  destruct (expect "-" s) as [r|]; [intros H; destruct (Hh _ _ H)|].
  discriminate.
Qed.

Lemma parseTimePart_no_offset_no_Z (s : string) (t : TimeFields) :
  parseTimePart s = Some t -> offset t = None -> includes s "Z" = false.
Proof.
  unfold parseTimePart.
  destruct (readDigits 2 s 0) as [[hh r]|] eqn:Hhh; cbn [bind]; [|discriminate].
  destruct (readDigits_prefix _ _ _ _ _ Hhh) as (p1 & -> & Hp1).
  destruct (expect ":" r) as [r1|] eqn:E1; cbn [bind]; [|discriminate].
  apply expect_spec in E1; subst r.
  destruct (readDigits 2 r1 0) as [[mm r2]|] eqn:Hmm; cbn [bind]; [|discriminate].
  destruct (readDigits_prefix _ _ _ _ _ Hmm) as (p2 & -> & Hp2).
  destruct (parseSeconds r2) as [[[ss ms] r3]|] eqn:Hss; cbn [bind]; [|discriminate].
  destruct (parseSeconds_prefix _ _ _ _ Hss) as (p3 & -> & Hp3).
  destruct (parseOffset r3) as [off|] eqn:Hoff; cbn [bind]; [|discriminate].
  destruct (guard ((hh <=? 24) && (mm <=? 59) && (ss <=? 59))); cbn [bind];
    [|discriminate].
  destruct (guard ((hh <? 24) || ((mm =? 0) && (ss =? 0) && (ms =? 0))));
    cbn [bind]; [|discriminate].
  intros [= <-]; cbn [offset]; intros ->.
  apply parseOffset_absent in Hoff; subst r3.
  rewrite includes_char_app, includes_char_cons, !includes_char_app.
  rewrite Hp1, Hp2, Hp3. reflexivity.
Qed.

(** A date-time string without offset contains the separator and does not
    end with the UTC marker. *)
Lemma wallClock_shape (s : string) (d : DateFields) (t : TimeFields) :
  wallClock s = Some (d, t) ->
  includes s "T" = true /\ endsWith s "Z" = false.
Proof.
  unfold wallClock, parseDateTimeString.
  destruct (splitAt "T" s) as [[ds ts]|] eqn:Hsplit.
  - apply splitAt_spec in Hsplit; subst s.
    destruct (parseDatePart ds) as [d'|]; cbn [bind]; [|discriminate].
    destruct (parseTimePart ts) as [t'|] eqn:Ht; cbn [bind]; [|discriminate].
    destruct (offset t') eqn:Hoff; [discriminate|].
    intros _. split.
    + rewrite includes_char_app, includes_char_cons. apply orb_true_r.
    + rewrite endsWith_char_app.
      destruct (endsWith (String "T" ts) "Z") eqn:E; [|reflexivity].
      apply endsWith_includes in E.
      rewrite includes_char_cons in E.
      rewrite (parseTimePart_no_offset_no_Z _ _ Ht Hoff) in E.
      discriminate.
  - destruct (parseDatePart s) as [d'|]; cbn [bind]; discriminate.
Qed.

End ParserShape.

(** ** [parseISTTimestamp] and the UTC marker *)

Section MarkerClaims.

Import JSString DateOps DateString TimeUtils.

Lemma istOffset_is_five_and_a_half_hours :
  (inject_Z istOffset == istOffsetQ)%Q /\
  (inject_Z istOffset == 5.5 * inject_Z msPerHour)%Q.
Proof. split; reflexivity. Qed.

(** On any host the marked branch gives the host-local reading of the
    clock fields that remain once the marker is removed. *)
Lemma parseISTTimestamp_zulu_local
      (h : Host) (ts : string) (d : DateFields) (t : TimeFields) :
  includes ts "T" = true ->
  endsWith ts "Z" = true ->
  wallClock (slice ts 0 (-1)) = Some (d, t) ->
  parseISTTimestamp h (Some ts)
    = (mkDate (TimeClip (Int (UTC h (civilTime d t)))), []).
Proof.
  intros HT HZ Hw.
  rewrite parseISTTimestamp_zulu by assumption.
  unfold DateObj.ofString.
  rewrite (parse_wallClock h _ d t Hw).
  reflexivity.
Qed.

(** On a host in the fixed zone, fields with a four-digit year keep every
    time value of the two branches inside the range of the Date type. *)
Lemma fixedZone_fourDigitYear_ranges
      (h : Host) (s : string) (d : DateFields) (t : TimeFields) :
  fixedZoneHost h ->
  wallClock s = Some (d, t) ->
  0 <= year d <= 9999 ->
  UTC h (civilTime d t) = civilTime d t - istOffset /\
  Z.abs (UTC h (civilTime d t)) <= maxTime /\
  Z.abs (UTC h (civilTime d t) - istOffset) <= maxTime.
Proof.
  intros Hfix Hw Hy.
  assert (E : UTC h (civilTime d t) = civilTime d t - istOffset)
    by (unfold UTC; rewrite Hfix; reflexivity).
  rewrite E. split; [reflexivity|]. split.
  - apply (wallClock_fourDigitYear_in_range s); auto.
    unfold istOffset, msPerDay; lia.
  - replace (civilTime d t - istOffset - istOffset)
      with (civilTime d t - 2 * istOffset) by lia.
    apply (wallClock_fourDigitYear_in_range s); auto.
    unfold istOffset, msPerDay; lia.
Qed.

(** The marked branch on a host in the fixed zone.  A timestamp that
    contains "T" and ends with "Z" loses the marker, and what remains, a
    date-time string of clock fields without offset, comes out as the
    instant whose +05:30 clock shows those fields.  The hypothesis on the
    host carries the zone: the branch itself reads host-local time. *)
Theorem parseISTTimestamp_zulu_wall_clock :
  (forall (h : Host) (ts : string) (d : DateFields) (t : TimeFields),
      fixedZoneHost h ->
      includes ts "T" = true ->
      endsWith ts "Z" = true ->
      wallClock (slice ts 0 (-1)) = Some (d, t) ->
      Z.abs (civilTime d t - istOffset) <= maxTime ->
      parseISTTimestamp h (Some ts)
        = (mkDate (Int (civilTime d t - istOffset)), []) /\
      (hour t <= 23 ->
       fixedZoneClock (civilTime d t - istOffset) = (hour t, minute t)))
  /\
  (forall h : Host,
      fixedZoneHost h ->
      let r := fst (parseISTTimestamp h (Some "2026-01-02T09:10:16.000Z")) in
      getTime r = Int 1767325216000 /\
      DateObj.getFullYear h r = Int 2026 /\
      DateObj.getMonth h r = Int 0 /\
      DateObj.getDate h r = Int 2 /\
      DateObj.getHours h r = Int 9 /\
      DateObj.getMinutes h r = Int 10 /\
      fixedZoneClock 1767325216000 = (9, 10) /\
      getTime r <> DateString.parse h "2026-01-02T09:10:16.000Z").
Proof.
  assert (General :
    forall h ts d t,
      fixedZoneHost h ->
      includes ts "T" = true -> endsWith ts "Z" = true ->
      wallClock (slice ts 0 (-1)) = Some (d, t) ->
      Z.abs (civilTime d t - istOffset) <= maxTime ->
      parseISTTimestamp h (Some ts)
        = (mkDate (Int (civilTime d t - istOffset)), [])).
  { intros h ts d t Hfix HT HZ Hw Hr.
    rewrite (parseISTTimestamp_zulu_local h ts d t) by assumption.
    unfold UTC; rewrite Hfix.
    rewrite TimeClip_in_range by assumption.
    reflexivity. }
  split.
  - intros h ts d t Hfix HT HZ Hw Hr; split; [now apply General|].
    intros Hh.
    destruct (wallClock_bounds _ _ _ Hw) as (Hm & Hs & Hms & Hhr).
    unfold fixedZoneClock.
    replace (civilTime d t - istOffset + istOffset) with (civilTime d t) by lia.
    unfold civilTime.
    rewrite HourFromTime_civil, MinFromTime_civil by lia.
    reflexivity.
  - intros h Hfix r.
    pose proof (General h "2026-01-02T09:10:16.000Z"
                  (mkDateFields 2026 1 2) (mkTimeFields 9 10 16 0 None)
                  Hfix eq_refl eq_refl eq_refl) as E.
    assert (Hr : r = mkDate (Int 1767325216000)).
    { subst r. rewrite E; [reflexivity | vm_compute; discriminate]. }
    rewrite Hr.
    unfold DateObj.getFullYear, DateObj.getMonth, DateObj.getDate,
      DateObj.getHours, DateObj.getMinutes, DateObj.localField, LocalTime.
    cbn [getTime]. rewrite Hfix.
    repeat split; try reflexivity.
    vm_compute; discriminate.
Qed.

Lemma parseISTTimestamp_zulu_wall_clock_witness :
  parseISTTimestamp (istHost 0) (Some "2026-01-02T09:10:16.000Z")
    = (mkDate (Int 1767325216000), []) /\
  fixedZoneClock 1767325216000 = (9, 10).
Proof.
  assert (Hrange : Z.abs (civilTime (mkDateFields 2026 1 2)
                            (mkTimeFields 9 10 16 0 None) - istOffset)
                   <= maxTime) by (vm_compute; discriminate).
  destruct (proj1 parseISTTimestamp_zulu_wall_clock
              (istHost 0) "2026-01-02T09:10:16.000Z"
              (mkDateFields 2026 1 2) (mkTimeFields 9 10 16 0 None)
              (fun _ _ => eq_refl) eq_refl eq_refl eq_refl Hrange)
    as [E C].
  split; [exact E | apply C; vm_compute; discriminate].
Defined.

(** What the no-marker branch returns for clock fields without offset:
    the host-local reading of the fields, 5.5 hours earlier. *)
Lemma parseISTTimestamp_no_marker_wallClock
      (h : Host) (ts : string) (d : DateFields) (t : TimeFields) :
  wallClock ts = Some (d, t) ->
  Z.abs (UTC h (civilTime d t)) <= maxTime ->
  Z.abs (UTC h (civilTime d t) - istOffset) <= maxTime ->
  parseISTTimestamp h (Some ts)
    = (mkDate (Int (UTC h (civilTime d t) - istOffset)), []).
Proof.
  intros Hw Hr1 Hr2.
  destruct (wallClock_shape _ _ _ Hw) as [HT HZ].
  rewrite parseISTTimestamp_no_marker by assumption.
  unfold DateObj.ofString, DateObj.ofNumber; cbn [getTime].
  rewrite (parse_wallClock h _ d t Hw).
  rewrite TimeClip_in_range by assumption.
  cbn [Num.sub].
  rewrite TimeClip_in_range by assumption.
  reflexivity.
Qed.

(** On a host in the fixed zone the no-marker timestamp
    "2026-01-02T15:30:00.000" does not come out as its UTC reading moved
    by 5.5 hours, in either direction. *)
Lemma no_marker_not_utc_shifted :
  includes "2026-01-02T15:30:00.000" "T" = true /\
  endsWith "2026-01-02T15:30:00.000" "Z" = false /\
  wallClock "2026-01-02T15:30:00.000"
    = Some (mkDateFields 2026 1 2, mkTimeFields 15 30 0 0 None) /\
  ~ readAsUtcThenShifted (istHost 0) "2026-01-02T15:30:00.000".
Proof.
  repeat split.
  intros H.
  destruct (H _ _ eq_refl) as [E|[E|E]]; vm_compute in E; discriminate.
Qed.

(** What the no-marker branch computes: the string is read by the Date
    constructor as local time of the host, and 5.5 hours are then
    subtracted; on a host in the fixed +05:30 zone the result is 11 hours
    before the UTC reading of the fields. *)
Theorem parseISTTimestamp_no_marker_local_minus_offset
        (h : Host) (ts : string) (d : DateFields) (t : TimeFields) :
  includes ts "T" = true ->
  endsWith ts "Z" = false ->
  wallClock ts = Some (d, t) ->
  Z.abs (UTC h (civilTime d t)) <= maxTime ->
  Z.abs (UTC h (civilTime d t) - istOffset) <= maxTime ->
  parseISTTimestamp h (Some ts)
    = (mkDate (Int (UTC h (civilTime d t) - istOffset)), []) /\
  (fixedZoneHost h ->
   parseISTTimestamp h (Some ts)
     = (mkDate (Int (civilTime d t - 2 * istOffset)), [])).
Proof.
  intros HT HZ Hw Hr1 Hr2.
  pose proof (parseISTTimestamp_no_marker_wallClock h ts d t Hw Hr1 Hr2)
    as E.
  split; [exact E|].
  intros Hfix. rewrite E. unfold UTC. rewrite Hfix.
  do 3 f_equal. lia.
Qed.

Lemma parseISTTimestamp_no_marker_local_minus_offset_witness :
  parseISTTimestamp (istHost 0) (Some "2026-01-02T15:30:00.000")
    = (mkDate (Int 1767328200000), []).
Proof.
  assert (R1 : Z.abs (UTC (istHost 0)
                        (civilTime (mkDateFields 2026 1 2)
                           (mkTimeFields 15 30 0 0 None))) <= maxTime)
    by (vm_compute; discriminate).
  assert (R2 : Z.abs (UTC (istHost 0)
                        (civilTime (mkDateFields 2026 1 2)
                           (mkTimeFields 15 30 0 0 None)) - istOffset)
               <= maxTime)
    by (vm_compute; discriminate).
  exact (proj1 (parseISTTimestamp_no_marker_local_minus_offset
                  (istHost 0) "2026-01-02T15:30:00.000"
                  (mkDateFields 2026 1 2) (mkTimeFields 15 30 0 0 None)
                  eq_refl eq_refl eq_refl R1 R2)).
Defined.

(** C3, at the failing input.  An unparseable string does not reach
    [catch]: the Date constructor returns an invalid Date instead of
    throwing, so the result is that invalid Date, not the current instant,
    and nothing is written to the console. *)
Theorem parseISTTimestamp_unparseable_is_invalid_date (h : Host) :
  parseISTTimestamp h (Some "invalid-timestamp") = (mkDate NaN, []) /\
  DateObj.isValid (fst (parseISTTimestamp h (Some "invalid-timestamp"))) = false /\
  fst (parseISTTimestamp h (Some "invalid-timestamp")) <> DateObj.now h /\
  snd (parseISTTimestamp h (Some "invalid-timestamp")) = [].
Proof.
  assert (E : parseISTTimestamp h (Some "invalid-timestamp") = (mkDate NaN, []))
    by reflexivity.
  rewrite E; cbn [fst snd].
  repeat split; try reflexivity.
  unfold DateObj.now; discriminate.
Qed.

(** C4.  The same clock fields with and without the trailing marker go
    to two instants exactly 5.5 hours apart, the marked one the later, on
    every host. *)
Theorem marker_asymmetry
        (h : Host) (s : string) (d : DateFields) (t : TimeFields) :
  wallClock s = Some (d, t) ->
  Z.abs (UTC h (civilTime d t)) <= maxTime ->
  Z.abs (UTC h (civilTime d t) - istOffset) <= maxTime ->
  exists a b : Z,
    getTime (fst (parseISTTimestamp h (Some (s ++ "Z")))) = Int a /\
    getTime (fst (parseISTTimestamp h (Some s))) = Int b /\
    a <> b /\
    a - b = istOffset /\
    2 * (a - b) = 11 * msPerHour.
Proof.
  intros Hw Hr1 Hr2.
  destruct (wallClock_shape _ _ _ Hw) as [HT HZ].
  exists (UTC h (civilTime d t)), (UTC h (civilTime d t) - istOffset).
  rewrite (parseISTTimestamp_no_marker_wallClock h s d t Hw Hr1 Hr2).
  rewrite parseISTTimestamp_zulu
    by (auto using includes_app, endsWith_app).
  rewrite slice_drop_last.
  unfold DateObj.ofString; cbn [fst getTime].
  rewrite (parse_wallClock h _ d t Hw), TimeClip_in_range by assumption.
  unfold istOffset, msPerHour.
  repeat split; lia.
Qed.

Lemma marker_asymmetry_witness :
  exists a b : Z,
    getTime (fst (parseISTTimestamp (istHost 0)
                    (Some ("2026-01-02T15:30:00.000" ++ "Z")))) = Int a /\
    getTime (fst (parseISTTimestamp (istHost 0)
                    (Some "2026-01-02T15:30:00.000"))) = Int b /\
    a <> b /\
    a - b = istOffset /\
    2 * (a - b) = 11 * msPerHour.
Proof.
  assert (R1 : Z.abs (UTC (istHost 0)
                        (civilTime (mkDateFields 2026 1 2)
                           (mkTimeFields 15 30 0 0 None))) <= maxTime)
    by (vm_compute; discriminate).
  assert (R2 : Z.abs (UTC (istHost 0)
                        (civilTime (mkDateFields 2026 1 2)
                           (mkTimeFields 15 30 0 0 None)) - istOffset)
               <= maxTime)
    by (vm_compute; discriminate).
  exact (marker_asymmetry (istHost 0) "2026-01-02T15:30:00.000"
           (mkDateFields 2026 1 2) (mkTimeFields 15 30 0 0 None)
           eq_refl R1 R2).
Defined.

(** C9.  A timestamp that contains "T", does not end with "Z" and carries
    an explicit UTC offset still goes through the no-marker branch: the
    result is 5.5 hours before the instant the string itself denotes. *)
Theorem parseISTTimestamp_explicit_offset_still_shifted
        (h : Host) (ts : string) (d : DateFields) (t : TimeFields) (off : Z) :
  includes ts "T" = true ->
  endsWith ts "Z" = false ->
  explicitOffset ts = Some (d, t, off) ->
  Z.abs (civilTime d t - off * msPerMinute) <= maxTime ->
  Z.abs (civilTime d t - off * msPerMinute - istOffset) <= maxTime ->
  DateString.parse h ts = Int (civilTime d t - off * msPerMinute) /\
  parseISTTimestamp h (Some ts)
    = (mkDate (Int (civilTime d t - off * msPerMinute - istOffset)), []).
Proof.
  intros HT HZ He Hr1 Hr2.
  assert (Hp : DateString.parse h ts = Int (civilTime d t - off * msPerMinute)).
  { rewrite (parse_explicitOffset h _ d t off He).
    apply TimeClip_in_range; assumption. }
  split; [exact Hp|].
  rewrite parseISTTimestamp_no_marker by assumption.
  unfold DateObj.ofString, DateObj.ofNumber; cbn [getTime].
  rewrite Hp; cbn [Num.sub].
  rewrite TimeClip_in_range by assumption.
  reflexivity.
Qed.

Lemma parseISTTimestamp_explicit_offset_still_shifted_witness :
  DateString.parse (istHost 0) "2024-01-15T14:30:00+05:30"
    = Int 1705309200000 /\
  parseISTTimestamp (istHost 0) (Some "2024-01-15T14:30:00+05:30")
    = (mkDate (Int 1705289400000), []).
Proof.
  assert (R1 : Z.abs (civilTime (mkDateFields 2024 1 15)
                        (mkTimeFields 14 30 0 0 (Some 330))
                      - 330 * msPerMinute) <= maxTime)
    by (vm_compute; discriminate).
  assert (R2 : Z.abs (civilTime (mkDateFields 2024 1 15)
                        (mkTimeFields 14 30 0 0 (Some 330))
                      - 330 * msPerMinute - istOffset) <= maxTime)
    by (vm_compute; discriminate).
  exact (parseISTTimestamp_explicit_offset_still_shifted
           (istHost 0) "2024-01-15T14:30:00+05:30"
           (mkDateFields 2024 1 15) (mkTimeFields 14 30 0 0 (Some 330)) 330
           eq_refl eq_refl eq_refl R1 R2).
Defined.

End MarkerClaims.

(** ** [getHoursAgo] *)

Section RelativePhrases.

Import TimeUtils.

Lemma toString_examples :
  Num.toString (Int 0) = "0" /\ Num.toString (Int 15) = "15" /\
  Num.toString (Int (-7)) = "-7" /\ Num.toString (Int 1440) = "1440" /\
  Num.toString (Int 1000) = "1000" /\ Num.toString NaN = "NaN".
Proof. repeat split; reflexivity. Qed.

Lemma toString_negative (m : Z) :
  m < 0 -> Num.toString (Int m) = String "-" (Num.digits (- m)).
Proof.
  intros Hm; unfold Num.toString.
  destruct (Z.ltb_spec m 0); [reflexivity | lia].
Qed.

(** The phrases the tests and the specification quote. *)
Lemma getHoursAgo_examples (now : Z) :
  let ago (ms : Z) := getHoursAgo (istHost now) (mkDate (Int (now - ms))) in
  ago 0 = "Just now" /\
  ago (1 * 60 * 1000) = "1 minute ago" /\
  ago (5 * 60 * 1000) = "5 minutes ago" /\
  ago (75 * 60 * 1000) = "1h 15m ago" /\
  ago (180 * 60 * 1000) = "3 hours ago" /\
  ago (24 * 60 * 60 * 1000) = "1 day ago" /\
  ago (48 * 60 * 60 * 1000) = "2 days ago".
Proof.
  cbv zeta. unfold getHoursAgo, DateObj.now, istHost.
  cbn [getTime currentTime Num.sub].
  repeat split;
    match goal with
    | |- context [Int (now - (now - ?k))] =>
        replace (now - (now - k)) with k by lia
    end; reflexivity.
Qed.

(** C5.  For a past instant not later than now, with [m] the whole
    minutes and [hr] the whole hours of the difference: "Just now" below
    one minute; "{m} minute(s) ago", singular exactly at 1, for
    1 <= m < 60; for 60 <= m < 1440, "{hr} hour(s) ago" when m is a
    multiple of 60 and "{hr}h {m mod 60}m ago" otherwise; and
    "{hr / 24} day(s) ago" from 1440 minutes on. *)
Theorem getHoursAgo_phrases (h : Host) (date : Date) (past : Z) :
  getTime date = Int past ->
  0 <= currentTime h - past ->
  let m := (currentTime h - past) / 60000 in
  let hr := (currentTime h - past) / 3600000 in
  (currentTime h - past < 60000 -> getHoursAgo h date = "Just now") /\
  (1 <= m < 60 ->
   getHoursAgo h date
     = (Num.toString (Int m) ++ " minute"
          ++ (if (m =? 1)%Z then EmptyString else "s") ++ " ago")%string) /\
  (60 <= m < 1440 -> m mod 60 = 0 ->
   getHoursAgo h date
     = (Num.toString (Int hr) ++ " hour"
          ++ (if (hr =? 1)%Z then EmptyString else "s") ++ " ago")%string) /\
  (60 <= m < 1440 -> m mod 60 <> 0 ->
   getHoursAgo h date
     = (Num.toString (Int hr) ++ "h " ++ Num.toString (Int (m mod 60))
          ++ "m ago")%string) /\
  (1440 <= m ->
   getHoursAgo h date
     = (Num.toString (Int (hr / 24)) ++ " day"
          ++ (if (hr / 24 =? 1)%Z then EmptyString else "s") ++ " ago")%string).
Proof.
  intros Hd Hx m hr.
  unfold getHoursAgo, DateObj.now.
  rewrite Hd.
  cbn [getTime Num.sub Num.floorDiv Num.strictEq Num.lt Num.rem].
  change (1000 * 60 * 60) with 3600000.
  change (1000 * 60) with 60000.
  fold m hr.
  assert (Hm : 60000 * m <= currentTime h - past < 60000 * m + 60000)
    by (subst m; Z.div_mod_to_equations; lia).
  assert (Hh : 3600000 * hr <= currentTime h - past < 3600000 * hr + 3600000)
    by (subst hr; Z.div_mod_to_equations; lia).
  assert (Hrem : Z.rem m 60 = m mod 60) by (apply Z.rem_mod_nonneg; lia).
  rewrite Hrem.
  assert (Hmod : 0 <= m mod 60 < 60) by (apply Z.mod_pos_bound; lia).
  assert (Hmq : m = 60 * (m / 60) + m mod 60) by (apply Z.div_mod; lia).
  assert (Hdd : 24 * (hr / 24) <= hr < 24 * (hr / 24) + 24)
    by (Z.div_mod_to_equations; lia).
  set (q := m / 60) in *. set (rm := m mod 60) in *.
  set (dd := hr / 24) in *.
  clearbody m hr q rm dd.
  repeat split.
  - intros Hlt.
    destruct (Z.eqb_spec m 0); [reflexivity | lia].
  - intros Hr.
    destruct (Z.eqb_spec m 0); [lia|].
    destruct (Z.ltb_spec m 60); [reflexivity | lia].
  - intros Hr H0.
    destruct (Z.eqb_spec m 0); [lia|].
    destruct (Z.ltb_spec m 60); [lia|].
    destruct (Z.ltb_spec hr 24); [|lia].
    destruct (Z.eqb_spec rm 0); [reflexivity | lia].
  - intros Hr H0.
    destruct (Z.eqb_spec m 0); [lia|].
    destruct (Z.ltb_spec m 60); [lia|].
    destruct (Z.ltb_spec hr 24); [|lia].
    destruct (Z.eqb_spec rm 0); [lia | reflexivity].
  - intros Hr.
    destruct (Z.eqb_spec m 0); [lia|].
    destruct (Z.ltb_spec m 60); [lia|].
    destruct (Z.ltb_spec hr 24); [lia|].
    destruct (Z.eqb_spec dd 1) as [->|]; reflexivity.
Qed.

Lemma getHoursAgo_phrases_witness :
  getHoursAgo (istHost 1793000000000) (mkDate (Int (1793000000000 - 4500000)))
    = "1h 15m ago".
Proof.
  refine (proj1 (proj2 (proj2 (proj2
            (getHoursAgo_phrases (istHost 1793000000000)
               (mkDate (Int (1793000000000 - 4500000)))
               (1793000000000 - 4500000) eq_refl _)))) _ _);
    vm_compute; [discriminate | split; [discriminate | reflexivity] | discriminate].
Defined.

(** C10.  For a date strictly later than now the whole-minute difference
    [m] is negative and the phrase comes from the under-one-hour branch:
    "{m} minutes ago" with the minus sign in place, never "Just now". *)
Theorem getHoursAgo_future (h : Host) (date : Date) (past : Z) :
  getTime date = Int past ->
  currentTime h < past ->
  let m := (currentTime h - past) / 60000 in
  m < 0 /\
  getHoursAgo h date = (Num.toString (Int m) ++ " minutes ago")%string /\
  getHoursAgo h date = String "-" (Num.digits (- m) ++ " minutes ago") /\
  getHoursAgo h date <> "Just now".
Proof.
  intros Hd Hlt m.
  assert (Hm : m < 0) by (subst m; Z.div_mod_to_equations; lia).
  assert (E : getHoursAgo h date
              = (Num.toString (Int m) ++ " minutes ago")%string).
  { unfold getHoursAgo, DateObj.now.
    rewrite Hd.
    cbn [getTime Num.sub Num.floorDiv Num.strictEq Num.lt Num.rem].
    change (1000 * 60) with 60000.
    fold m. clearbody m.
    destruct (Z.eqb_spec m 0); [lia|].
    destruct (Z.ltb_spec m 60); [|lia].
    destruct (Z.eqb_spec m 1); [lia | reflexivity]. }
  rewrite E, toString_negative by assumption.
  repeat split; try assumption; discriminate.
Qed.

Lemma getHoursAgo_future_witness :
  getHoursAgo (istHost 1793000000000) (mkDate (Int (1793000000000 + 300000)))
    = "-5 minutes ago".
Proof.
  refine (proj1 (proj2
            (getHoursAgo_future (istHost 1793000000000)
               (mkDate (Int (1793000000000 + 300000)))
               (1793000000000 + 300000) eq_refl _)));
    vm_compute; reflexivity.
Defined.

End RelativePhrases.

(** ** The cell-centre mapping and the grid constants *)

Section GridClaims.

Import GridCoordinateMapper.
Local Open Scope Q_scope.

Lemma scenario_steps :
  latStep JAIPUR_BOUNDARIES scenarioGrid == 0.01 /\
  lngStep JAIPUR_BOUNDARIES scenarioGrid == 0.018.
Proof. split; reflexivity. Qed.

(** A boundary with the north-west corner north and west of the
    south-east one, cut into a positive number of cells, has positive
    steps. *)
Lemma steps_positive (b : GeoBoundary) (g : GridDimensions) :
  lat (southeast b) < lat (northwest b) ->
  lng (northwest b) < lng (southeast b) ->
  (0 < columns g)%Z -> (0 < rows g)%Z ->
  0 < latStep b g /\ 0 < lngStep b g.
Proof.
  intros Hlat Hlng Hc Hr.
  unfold latStep, lngStep, Qdiv.
  split; apply Qmult_lt_0_compat; try lra;
    apply Qinv_lt_0_compat; change 0 with (inject_Z 0);
    rewrite <- Zlt_Qlt; assumption.
Qed.

Lemma cellCenter_lat_decreasing (b : GeoBoundary) (g : GridDimensions)
      (x y1 y2 : Z) :
  0 < latStep b g -> (y1 < y2)%Z ->
  lat (cellCenter b g x y2) < lat (cellCenter b g x y1).
Proof.
  intros Hs Hy. cbn [cellCenter lat].
  rewrite Zlt_Qlt in Hy.
  assert (0 < latStep b g * (inject_Z y2 - inject_Z y1))
    by (apply Qmult_lt_0_compat; lra).
  lra.
Qed.

Lemma cellCenter_lng_increasing (b : GeoBoundary) (g : GridDimensions)
      (x1 x2 y : Z) :
  0 < lngStep b g -> (x1 < x2)%Z ->
  lng (cellCenter b g x1 y) < lng (cellCenter b g x2 y).
Proof.
  intros Hs Hx. cbn [cellCenter lng].
  rewrite Zlt_Qlt in Hx.
  assert (0 < lngStep b g * (inject_Z x2 - inject_Z x1))
    by (apply Qmult_lt_0_compat; lra).
  lra.
Qed.

(** With the step and centre formulas the four closeness assertions do
    not hold together: the centre of cell (14, 20) is not within 0.0001
    degrees of the quoted pair. *)
Lemma scenario_corners_not_all_within :
  ~ (within 0.0001 (lat (cellCenter JAIPUR_BOUNDARIES scenarioGrid 0 0)) 26.985059 /\
     within 0.0001 (lng (cellCenter JAIPUR_BOUNDARIES scenarioGrid 0 0)) 75.659073 /\
     within 0.0001 (lat (cellCenter JAIPUR_BOUNDARIES scenarioGrid 14 20)) 26.787431 /\
     within 0.0001 (lng (cellCenter JAIPUR_BOUNDARIES scenarioGrid 14 20)) 75.912645).
Proof.
  intros (_ & _ & H & _).
  unfold within in H. vm_compute in H. apply H; reflexivity.
Qed.


(** C7.  With positive step sizes, over the indices of the grid, the
    latitude of the cell centre strictly decreases as [y] increases and
    the longitude strictly increases as [x] increases. *)
Theorem cellCenter_monotone (b : GeoBoundary) (g : GridDimensions) :
  0 < latStep b g ->
  0 < lngStep b g ->
  (forall x y1 y2 : Z,
      (0 <= x < columns g)%Z ->
      (0 <= y1 < rows g)%Z -> (0 <= y2 < rows g)%Z ->
      (y1 < y2)%Z ->
      lat (cellCenter b g x y2) < lat (cellCenter b g x y1)) /\
  (forall x1 x2 y : Z,
      (0 <= x1 < columns g)%Z -> (0 <= x2 < columns g)%Z ->
      (0 <= y < rows g)%Z ->
      (x1 < x2)%Z ->
      lng (cellCenter b g x1 y) < lng (cellCenter b g x2 y)).
Proof.
  intros Hlat Hlng; split.
  - intros x y1 y2 _ _ _ Hy. now apply cellCenter_lat_decreasing.
  - intros x1 x2 y _ _ _ Hx. now apply cellCenter_lng_increasing.
Qed.

Lemma cellCenter_monotone_witness :
  lat (cellCenter JAIPUR_BOUNDARIES scenarioGrid 3 20)
    < lat (cellCenter JAIPUR_BOUNDARIES scenarioGrid 3 0) /\
  lng (cellCenter JAIPUR_BOUNDARIES scenarioGrid 0 7)
    < lng (cellCenter JAIPUR_BOUNDARIES scenarioGrid 14 7).
Proof.
  assert (Hlat : 0 < latStep JAIPUR_BOUNDARIES scenarioGrid) by reflexivity.
  assert (Hlng : 0 < lngStep JAIPUR_BOUNDARIES scenarioGrid) by reflexivity.
  destruct (cellCenter_monotone JAIPUR_BOUNDARIES scenarioGrid Hlat Hlng)
    as [Hy Hx].
  split.
  - apply Hy; cbn; lia.
  - apply Hx; cbn; lia.
Defined.

(** C8, on the code.  [GRID_DIMENSIONS] of [constants.ts] holds 16
    columns and 24 rows, not the 15 by 21 of the literal scenario that the
    coordinate tests assert for it. *)
Theorem GRID_DIMENSIONS_values :
  Constants.COLS Constants.GRID_DIMENSIONS = 16%Z /\
  Constants.ROWS Constants.GRID_DIMENSIONS = 24%Z /\
  Constants.COLS Constants.GRID_DIMENSIONS <> columns scenarioGrid /\
  Constants.ROWS Constants.GRID_DIMENSIONS <> rows scenarioGrid.
Proof. repeat split; discriminate. Qed.

End GridClaims.

(** * Further properties of the code *)

(** ** More on strings *)

Section MoreStringFacts.

Import JSString.

Lemma includes_app_r (s t pat : string) :
  includes t pat = true -> includes (s ++ t) pat = true.
Proof.
  intros H. induction s as [|c s IH]; [exact H|].
  change (String c s ++ t)%string with (String c (s ++ t)).
  rewrite includes_cons, IH. apply orb_true_r.
Qed.

(** [replace] with a pattern of one code unit acts on its first
    occurrence. *)
Lemma replace_first_char (a b : string) (c : ascii) (rep : string) :
  includes a (String c EmptyString) = false ->
  replace (a ++ String c b) (String c EmptyString) rep = (a ++ rep ++ b)%string.
Proof.
  induction a as [|x a IH].
  - intros _. cbn [append replace startsWith].
    rewrite Ascii.eqb_refl, startsWith_empty. reflexivity.
  - rewrite includes_char_cons. intros H.
    apply orb_false_iff in H as [Hx Ha].
    change (String x a ++ String c b)%string with (String x (a ++ String c b)).
    cbn [replace startsWith]. rewrite Hx. cbn [andb].
    rewrite (IH Ha). reflexivity.
Qed.

Lemma replaceAll_removes (s : string) (c : ascii) (rep : string) :
  includes rep (String c EmptyString) = false ->
  includes (JSMore.replaceAll s c rep) (String c EmptyString) = false.
Proof.
  intros Hrep. induction s as [|a s IH]; [reflexivity|].
  cbn [JSMore.replaceAll].
  destruct (Ascii.eqb a c) eqn:E.
  - rewrite includes_char_app, Hrep, IH. reflexivity.
  - rewrite includes_char_cons, E, IH. reflexivity.
Qed.

End MoreStringFacts.

(** ** [parseISTTimestamp]: the space-separated shape and the dead
    fallback *)

Section MoreParseIST.

Import JSString DateOps DateString TimeUtils.

(** X1.  A date and a time separated by one space give the same Date as the
    two joined by "T" and marked with "Z": both go to the Date constructor
    as the same string and neither is shifted afterwards. *)
Theorem parseISTTimestamp_space_as_marked (h : Host) (a b : string) :
  includes a "T" = false ->
  includes a " " = false ->
  includes b "T" = false ->
  parseISTTimestamp h (Some (a ++ " " ++ b))
    = parseISTTimestamp h (Some (a ++ "T" ++ b ++ "Z")).
Proof.
  intros HaT Has HbT.
  change (" " ++ b)%string with (String " " b).
  change ("T" ++ b ++ "Z")%string with (String "T" (b ++ "Z")).
  replace (a ++ String "T" (b ++ "Z"))%string
    with ((a ++ String "T" b) ++ "Z")%string
    by (rewrite append_assoc; reflexivity).
  rewrite parseISTTimestamp_space.
  - rewrite (replace_first_char a b " " "T" Has).
    rewrite parseISTTimestamp_zulu.
    + rewrite slice_drop_last. reflexivity.
    + apply includes_app. rewrite includes_char_app, includes_char_cons.
      apply orb_true_r.
    + apply endsWith_app.
  - rewrite includes_char_app, includes_char_cons, HaT, HbT. reflexivity.
  - destruct a; discriminate.
Qed.

Lemma parseISTTimestamp_space_as_marked_witness :
  parseISTTimestamp (istHost 0) (Some ("2025-12-31" ++ " " ++ "21:41:30"))
    = parseISTTimestamp (istHost 0)
        (Some ("2025-12-31" ++ "T" ++ "21:41:30" ++ "Z")).
Proof.
  exact (parseISTTimestamp_space_as_marked (istHost 0)
           "2025-12-31" "21:41:30" eq_refl eq_refl eq_refl).
Defined.

(** X2.  The space-separated shape on a host in the fixed zone: the clock
    fields are a reading in that zone, with no 5.5-hour shift. *)
Theorem parseISTTimestamp_space_wall_clock
        (h : Host) (ts : string) (d : DateFields) (t : TimeFields) :
  fixedZoneHost h ->
  includes ts "T" = false ->
  wallClock (replace ts " " "T") = Some (d, t) ->
  Z.abs (civilTime d t - istOffset) <= maxTime ->
  parseISTTimestamp h (Some ts)
    = (mkDate (Int (civilTime d t - istOffset)), []) /\
  (hour t <= 23 ->
   fixedZoneClock (civilTime d t - istOffset) = (hour t, minute t)).
Proof.
  intros Hfix HT Hw Hr.
  assert (Hne : ts <> EmptyString).
  { intros ->. cbn in Hw. discriminate. }
  split.
  - rewrite parseISTTimestamp_space by assumption.
    unfold DateObj.ofString.
    rewrite (parse_wallClock h _ d t Hw).
    unfold UTC; rewrite Hfix.
    rewrite TimeClip_in_range by assumption.
    reflexivity.
  - intros Hh.
    destruct (wallClock_bounds _ _ _ Hw) as (Hm & Hs & Hms & Hhr).
    unfold fixedZoneClock.
    replace (civilTime d t - istOffset + istOffset) with (civilTime d t) by lia.
    unfold civilTime.
    rewrite HourFromTime_civil, MinFromTime_civil by lia.
    reflexivity.
Qed.

Lemma parseISTTimestamp_space_wall_clock_witness :
  parseISTTimestamp (istHost 0) (Some "2025-12-31 21:41:30")
    = (mkDate (Int 1767197490000), []) /\
  fixedZoneClock 1767197490000 = (21, 41).
Proof.
  assert (Hrange : Z.abs (civilTime (mkDateFields 2025 12 31)
                            (mkTimeFields 21 41 30 0 None) - istOffset)
                   <= maxTime) by (vm_compute; discriminate).
  destruct (parseISTTimestamp_space_wall_clock
              (istHost 0) "2025-12-31 21:41:30"
              (mkDateFields 2025 12 31) (mkTimeFields 21 41 30 0 None)
              (fun _ _ => eq_refl) eq_refl eq_refl Hrange)
    as [E C].
  split; [exact E | apply C; vm_compute; discriminate].
Defined.

(** X3.  For a non-empty string the fallback of the [catch] block is dead: the
    console stays silent and the returned Date does not depend on the
    current time. *)
Theorem parseISTTimestamp_never_falls_back
        (tz : Z -> bool -> Z) (now1 now2 : Z) (ts : string) :
  ts <> EmptyString ->
  parseISTTimestamp (mkHost tz now1) (Some ts)
    = parseISTTimestamp (mkHost tz now2) (Some ts) /\
  snd (parseISTTimestamp (mkHost tz now1) (Some ts)) = [].
Proof.
  intros Hne. split; [|apply parseISTTimestamp_console_silent].
  destruct ts as [|c r]; [congruence|].
  unfold parseISTTimestamp, tryBody.
  destruct (includes (String c r) "T"), (endsWith (String c r) "Z");
    reflexivity.
Qed.

Lemma parseISTTimestamp_never_falls_back_witness :
  parseISTTimestamp (mkHost (fun _ _ => istOffset) 0) (Some "invalid-timestamp")
    = parseISTTimestamp (mkHost (fun _ _ => istOffset) 1793000000000)
        (Some "invalid-timestamp") /\
  snd (parseISTTimestamp (mkHost (fun _ _ => istOffset) 0)
         (Some "invalid-timestamp")) = [].
Proof.
  apply (parseISTTimestamp_never_falls_back
           (fun _ _ => istOffset) 0 1793000000000 "invalid-timestamp").
  discriminate.
Defined.

(** X4.  On a host in the fixed zone an offset-free date-time string with a
    four-digit year always gives valid Dates: with the marker the instant
    that reads as the fields in the zone, without it the instant 5.5 hours
    before. *)
Theorem parseISTTimestamp_fourDigitYear_valid
        (h : Host) (s : string) (d : DateFields) (t : TimeFields) :
  fixedZoneHost h ->
  wallClock s = Some (d, t) ->
  0 <= year d <= 9999 ->
  parseISTTimestamp h (Some (s ++ "Z"))
    = (mkDate (Int (civilTime d t - istOffset)), []) /\
  parseISTTimestamp h (Some s)
    = (mkDate (Int (civilTime d t - 2 * istOffset)), []).
Proof.
  intros Hfix Hw Hy.
  destruct (fixedZone_fourDigitYear_ranges h s d t Hfix Hw Hy) as (E & R1 & R2).
  destruct (wallClock_shape _ _ _ Hw) as [HT HZ].
  split.
  - rewrite (parseISTTimestamp_zulu_local h (s ++ "Z") d t).
    + rewrite TimeClip_in_range by assumption. rewrite E. reflexivity.
    + apply includes_app; assumption.
    + apply endsWith_app.
    + rewrite slice_drop_last. assumption.
  - rewrite (parseISTTimestamp_no_marker_wallClock h s d t Hw R1 R2).
    rewrite E. do 3 f_equal. lia.
Qed.

Lemma parseISTTimestamp_fourDigitYear_valid_witness :
  parseISTTimestamp (istHost 0) (Some ("2026-01-02T15:30:00.000" ++ "Z"))
    = (mkDate (Int 1767348000000), []) /\
  parseISTTimestamp (istHost 0) (Some "2026-01-02T15:30:00.000")
    = (mkDate (Int 1767328200000), []).
Proof.
  apply (parseISTTimestamp_fourDigitYear_valid (istHost 0)
           "2026-01-02T15:30:00.000"
           (mkDateFields 2026 1 2) (mkTimeFields 15 30 0 0 None)
           (fun _ _ => eq_refl) eq_refl).
  cbn; lia.
Defined.

End MoreParseIST.

(** ** [getHoursAgo]: the shape of the phrase *)

Section MoreRelativePhrases.

Import JSString TimeUtils.

Lemma digitChar_cases (k : Z) :
  0 <= k <= 9 ->
  In (Num.digitChar k)
     ["0"; "1"; "2"; "3"; "4"; "5"; "6"; "7"; "8"; "9"]%char.
Proof.
  intros Hk.
  assert (k = 0 \/ k = 1 \/ k = 2 \/ k = 3 \/ k = 4 \/ k = 5 \/ k = 6 \/
          k = 7 \/ k = 8 \/ k = 9) as H by lia.
  repeat (destruct H as [->|H]; [cbn; tauto|]).
  subst k; cbn; tauto.
Qed.

(** A printed integer starts with a digit, whatever the fuel. *)
Lemma digitsPos_head (fuel : nat) :
  forall (n : Z) (acc : string),
    exists (k : Z) (r : string),
      0 <= k <= 9 /\
      Num.digitsPos (S fuel) n acc = String (Num.digitChar k) r.
Proof.
  induction fuel as [|fuel IH]; intros n acc.
  - exists (n mod 10), acc. split; [pose proof (Z.mod_pos_bound n 10); lia|].
    cbn [Num.digitsPos]. destruct (n <? 10); reflexivity.
  - change (Num.digitsPos (S (S fuel)) n acc)
      with (if n <? 10 then String (Num.digitChar (n mod 10)) acc
            else Num.digitsPos (S fuel) (n / 10)
                   (String (Num.digitChar (n mod 10)) acc)).
    destruct (n <? 10).
    + exists (n mod 10), acc.
      split; [pose proof (Z.mod_pos_bound n 10); lia | reflexivity].
    + apply IH.
Qed.

(** What [toString] can start with: "N" of NaN, a minus sign, or a
    digit. *)
Lemma toString_head (a : Number) :
  exists (c : ascii) (r : string),
    Num.toString a = String c r /\
    In c ["N"; "-"; "0"; "1"; "2"; "3"; "4"; "5"; "6"; "7"; "8"; "9"]%char /\
    (c = "N"%char -> a = NaN).
Proof.
  destruct a as [|x].
  - exists "N"%char, "aN". cbn. tauto.
  - unfold Num.toString. destruct (x <? 0).
    + exists "-"%char, (Num.digits (- x)). cbn.
      repeat split; try tauto. discriminate.
    + unfold Num.digits.
      destruct (digitsPos_head (Z.to_nat (Z.log2 x)) x EmptyString)
        as (k & r & Hk & E).
      exists (Num.digitChar k), r. rewrite E.
      pose proof (digitChar_cases k Hk) as Hin.
      repeat split.
      * cbn in Hin |- *. tauto.
      * intros HN. rewrite HN in Hin. cbn in Hin.
        repeat (destruct Hin as [Hin|Hin]; [discriminate|]). destruct Hin.
Qed.

Lemma endsWith_ago (s : string) : endsWith (s ++ " ago") " ago" = true.
Proof. apply endsWith_app. Qed.

(** X5.  Every phrase is "Just now" or ends with " ago"; it is never empty. *)
Theorem getHoursAgo_shape (h : Host) (date : Date) :
  getHoursAgo h date = "Just now" \/
  endsWith (getHoursAgo h date) " ago" = true.
Proof.
  unfold getHoursAgo.
  destruct (Num.strictEq _ 0); [left; reflexivity | right].
  destruct (Num.lt _ 60).
  - rewrite <- !append_assoc. apply endsWith_ago.
  - destruct (Num.lt _ 24).
    + destruct (Num.strictEq (Num.rem _ 60) 0).
      * rewrite <- !append_assoc. apply endsWith_ago.
      * change "m ago" with ("m" ++ " ago")%string.
        rewrite <- !append_assoc. apply endsWith_ago.
    + destruct (Num.strictEq _ 1); [reflexivity|].
      change " days ago" with (" days" ++ " ago")%string.
      rewrite <- !append_assoc. apply endsWith_ago.
Qed.

(** X6.  "NaN days ago" is what an invalid Date gives, and only an invalid
    Date. *)
Theorem getHoursAgo_NaN_iff_invalid (h : Host) (date : Date) :
  getHoursAgo h date = "NaN days ago" <-> DateObj.isValid date = false.
Proof.
  unfold DateObj.isValid. split.
  - destruct (getTime date) as [|past] eqn:Hd; [reflexivity|].
    intros E. exfalso. revert E.
    unfold getHoursAgo, DateObj.now. rewrite Hd.
    cbn [getTime Num.sub Num.floorDiv Num.strictEq Num.lt Num.rem].
    set (m := (currentTime h - past) / (1000 * 60)).
    set (hr := (currentTime h - past) / (1000 * 60 * 60)).
    set (rm := Z.rem m 60). set (dd := hr / 24).
    assert (Hhead : forall (x : Z) (r : string),
               (Num.toString (Int x) ++ r)%string <> "NaN days ago").
    { intros x r E.
      destruct (toString_head (Int x)) as (c & r' & Ec & _ & HN).
      rewrite Ec in E. cbn in E. injection E as Ec' _.
      specialize (HN Ec'). discriminate. }
    destruct (m =? 0); [discriminate|].
    destruct (m <? 60); [apply Hhead|].
    destruct (hr <? 24).
    + destruct (rm =? 0); apply Hhead.
    + destruct (dd =? 1); [discriminate | apply Hhead].
  - destruct (getTime date) eqn:Hd; [|discriminate].
    intros _. unfold getHoursAgo. rewrite Hd. reflexivity.
Qed.

(** X7.  "Just now" is said exactly during the first minute after the date:
    not before the date, and not from one minute on. *)
Theorem getHoursAgo_just_now_iff (h : Host) (date : Date) (past : Z) :
  getTime date = Int past ->
  (getHoursAgo h date = "Just now" <-> 0 <= currentTime h - past < 60000).
Proof.
  intros Hd.
  unfold getHoursAgo, DateObj.now. rewrite Hd.
  cbn [getTime Num.sub Num.floorDiv Num.strictEq Num.lt Num.rem].
  change (1000 * 60 * 60) with 3600000.
  change (1000 * 60) with 60000.
  set (m := (currentTime h - past) / 60000).
  assert (Hm : 60000 * m <= currentTime h - past < 60000 * m + 60000)
    by (subst m; Z.div_mod_to_equations; lia).
  set (hr := (currentTime h - past) / 3600000).
  set (rm := Z.rem m 60). set (dd := hr / 24).
  clearbody m hr rm dd.
  assert (Hhead : forall (x : Z) (r : string),
             (Num.toString (Int x) ++ r)%string <> "Just now").
  { intros x r E.
    destruct (toString_head (Int x)) as (c & r' & Ec & Hin & _).
    rewrite Ec in E. cbn in E. injection E as Ec' _.
    rewrite Ec' in Hin. cbn in Hin.
    repeat (destruct Hin as [Hin|Hin]; [discriminate|]). destruct Hin. }
  destruct (Z.eqb_spec m 0) as [->|Hne].
  - split; [intros _; lia | reflexivity].
  - split; [|intros; lia].
    intros E. exfalso. revert E.
    destruct (m <? 60); [apply Hhead|].
    destruct (hr <? 24).
    + destruct (rm =? 0); apply Hhead.
    + destruct (dd =? 1); [discriminate | apply Hhead].
Qed.

Lemma getHoursAgo_just_now_iff_witness :
  getHoursAgo (istHost 1793000000000) (mkDate (Int (1793000000000 - 59999)))
    = "Just now".
Proof.
  apply (proj2 (getHoursAgo_just_now_iff (istHost 1793000000000)
                  (mkDate (Int (1793000000000 - 59999)))
                  (1793000000000 - 59999) eq_refl)).
  cbn; lia.
Defined.

End MoreRelativePhrases.

(** ** The calendar fields of a time value *)

Section CalendarRoundTrip.

Import DateOps.

Lemma DayFromYear_linear (y : Z) :
  146097 * (y - 1970) - 608 <= 400 * DayFromYear y
  <= 146097 * (y - 1970) + 596.
Proof. unfold DayFromYear. Z.div_mod_to_equations. lia. Qed.

Lemma DayFromYear_mono (a b : Z) : a <= b -> DayFromYear a <= DayFromYear b.
Proof.
  intros Hab.
  destruct (Z.eq_dec a b) as [->|Hne]; [lia|].
  pose proof (DayFromYear_linear a). pose proof (DayFromYear_linear b). lia.
Qed.

(** The year is determined by the day it contains. *)
Lemma YearFromTime_unique (t y : Z) :
  DayFromYear y <= Day t < DayFromYear (y + 1) -> YearFromTime t = y.
Proof.
  intros Hy. pose proof (YearFromTime_spec t) as Hs.
  destruct (Z.lt_trichotomy (YearFromTime t) y) as [Hlt|[Heq|Hgt]];
    [exfalso | exact Heq | exfalso].
  - pose proof (DayFromYear_mono (YearFromTime t + 1) y). lia.
  - pose proof (DayFromYear_mono (y + 1) (YearFromTime t)). lia.
Qed.

Lemma DayWithinYear_bounds (t : Z) :
  0 <= DayWithinYear t < DaysInYear (YearFromTime t).
Proof.
  unfold DayWithinYear. pose proof (YearFromTime_spec t) as Hs.
  rewrite DayFromYear_succ in Hs. lia.
Qed.

(** The month search stops at the month that contains the day. *)
Lemma monthOfDay_spec (leap : bool) (dwy : Z) :
  0 <= dwy < (if leap then 366 else 365) ->
  let m := monthOfDay 11 leap dwy 0 in
  0 <= m <= 11 /\
  monthStart leap m <= dwy < monthStart leap m + DaysInMonth leap m.
Proof.
  intros Hd.
  destruct leap; cbn [monthOfDay monthStart Z.add Pos.add Pos.succ];
    repeat match goal with
           | |- context [?a <=? ?b] => destruct (Z.leb_spec a b)
           end;
    cbn; lia.
Qed.

Lemma MonthFromTime_bounds (t : Z) : 0 <= MonthFromTime t <= 11.
Proof.
  unfold MonthFromTime.
  pose proof (DayWithinYear_bounds t) as Hd. unfold DaysInYear in Hd.
  apply (monthOfDay_spec (isLeap (YearFromTime t)) (DayWithinYear t)). exact Hd.
Qed.

Lemma DaysInMonth_bounds (leap : bool) (m : Z) : 28 <= DaysInMonth leap m <= 31.
Proof.
  unfold DaysInMonth.
  destruct leap; destruct m as [|p|p]; try lia;
    repeat (destruct p as [p|p|]; try lia).
Qed.

Lemma DateFromTime_bounds (t : Z) : 1 <= DateFromTime t <= 31.
Proof.
  unfold DateFromTime, MonthFromTime.
  pose proof (DayWithinYear_bounds t) as Hd. unfold DaysInYear in Hd.
  pose proof (monthOfDay_spec (isLeap (YearFromTime t)) (DayWithinYear t) Hd)
    as [_ Hm].
  pose proof (DaysInMonth_bounds (isLeap (YearFromTime t))
                (monthOfDay 11 (isLeap (YearFromTime t)) (DayWithinYear t) 0)).
  lia.
Qed.

Lemma HourFromTime_bounds (t : Z) : 0 <= HourFromTime t <= 23.
Proof. unfold HourFromTime. pose proof (Z.mod_pos_bound (t / msPerHour) 24). lia. Qed.

Lemma MinFromTime_bounds (t : Z) : 0 <= MinFromTime t <= 59.
Proof. unfold MinFromTime. pose proof (Z.mod_pos_bound (t / msPerMinute) 60). lia. Qed.

Lemma Day_MakeDate (dayNo time : Z) :
  0 <= time < msPerDay -> Day (MakeDate dayNo time) = dayNo.
Proof.
  intros Ht. unfold Day, MakeDate.
  rewrite Z.div_add_l by (unfold msPerDay; lia).
  rewrite Z.div_small by assumption. lia.
Qed.

(** Year, month and day of the month read back from a calendar date that
    exists. *)
Lemma calendar_roundtrip (y mn dt time : Z) :
  0 <= mn <= 11 ->
  1 <= dt <= DaysInMonth (isLeap y) mn ->
  0 <= time < msPerDay ->
  let t := MakeDate (MakeDay y mn dt) time in
  YearFromTime t = y /\ MonthFromTime t = mn /\ DateFromTime t = dt.
Proof.
  intros Hmn Hdt Htime t.
  assert (Hday : Day t = DayFromYear y + monthStart (isLeap y) mn + dt - 1).
  { subst t. rewrite Day_MakeDate by assumption.
    unfold MakeDay. rewrite Z.div_small, Z.mod_small by lia.
    rewrite Z.add_0_r. reflexivity. }
  assert (Hcases : mn = 0 \/ mn = 1 \/ mn = 2 \/ mn = 3 \/ mn = 4 \/ mn = 5 \/
                   mn = 6 \/ mn = 7 \/ mn = 8 \/ mn = 9 \/ mn = 10 \/ mn = 11)
    by lia.
  assert (Hyear : YearFromTime t = y).
  { apply YearFromTime_unique. rewrite DayFromYear_succ, Hday.
    unfold DaysInYear.
    clear Hday. destruct (isLeap y);
      repeat (destruct Hcases as [->|Hcases];
              [cbn [monthStart DaysInMonth] in Hdt |- *; lia|]);
      subst mn; cbn [monthStart DaysInMonth] in Hdt |- *; lia. }
  assert (Hdwy : DayWithinYear t = monthStart (isLeap y) mn + dt - 1).
  { unfold DayWithinYear. rewrite Hyear, Hday. lia. }
  assert (Hmonth : MonthFromTime t = mn).
  { unfold MonthFromTime. rewrite Hyear, Hdwy.
    clear Hday Hdwy Hyear.
    remember (monthStart (isLeap y) mn + dt - 1) as dwy eqn:Edwy.
    destruct (isLeap y);
      repeat (destruct Hcases as [->|Hcases];
              [cbn [monthStart DaysInMonth] in Hdt, Edwy;
               cbn [monthOfDay monthStart Z.add Pos.add Pos.succ];
               repeat match goal with
                      | |- context [?a <=? ?b] => destruct (Z.leb_spec a b)
                      end; lia|]);
      subst mn; cbn [monthStart DaysInMonth] in Hdt, Edwy;
      cbn [monthOfDay monthStart Z.add Pos.add Pos.succ];
      repeat match goal with
             | |- context [?a <=? ?b] => destruct (Z.leb_spec a b)
             end; lia. }
  repeat split; try assumption.
  unfold DateFromTime. rewrite Hyear, Hmonth, Hdwy. lia.
Qed.

End CalendarRoundTrip.

(** ** [formatChartTime] *)

Section ChartTimeFacts.

Import JSString DateOps DateString TimeUtils.

(** A number from 0 to 99 prints as exactly two code units. *)
Lemma twoDigits_two (n : Z) :
  0 <= n <= 99 ->
  exists a b : ascii, TimeFormat.twoDigits n = String a (String b EmptyString).
Proof.
  intros Hn.
  assert (Hall : forallb
                   (fun k => Nat.eqb
                               (String.length
                                  (TimeFormat.twoDigits (Z.of_nat k))) 2)
                   (seq 0 100) = true) by (vm_compute; reflexivity).
  rewrite forallb_forall in Hall.
  specialize (Hall (Z.to_nat n)).
  rewrite Z2Nat.id in Hall by lia.
  assert (Hlen : String.length (TimeFormat.twoDigits n) = 2%nat).
  { apply Nat.eqb_eq, Hall, in_seq. lia. }
  destruct (TimeFormat.twoDigits n) as [|a [|b [|c r]]]; try discriminate.
  eauto.
Qed.

(** X8.  The label of a valid Date is always eleven code units, "DD/MM HH:MM",
    with the separators in place; an invalid Date prints as
    "NaN/NaN NaN:NaN". *)
Theorem formatChartTime_layout (h : Host) (date : Date) :
  (DateObj.isValid date = true ->
   String.length (TimeFormat.formatChartTime h date) = 11%nat /\
   String.get 2 (TimeFormat.formatChartTime h date) = Some "/"%char /\
   String.get 5 (TimeFormat.formatChartTime h date) = Some " "%char /\
   String.get 8 (TimeFormat.formatChartTime h date) = Some ":"%char) /\
  (DateObj.isValid date = false ->
   TimeFormat.formatChartTime h date = "NaN/NaN NaN:NaN").
Proof.
  unfold DateObj.isValid, TimeFormat.formatChartTime,
    DateObj.getDate, DateObj.getMonth, DateObj.getHours, DateObj.getMinutes,
    DateObj.localField.
  destruct (getTime date) as [|t]; split; try discriminate.
  - intros _. reflexivity.
  - intros _. cbn [JSMore.add].
    pose proof (DateFromTime_bounds (LocalTime h t)) as HD.
    pose proof (MonthFromTime_bounds (LocalTime h t)) as HM.
    pose proof (HourFromTime_bounds (LocalTime h t)) as HH.
    pose proof (MinFromTime_bounds (LocalTime h t)) as HN.
    fold (TimeFormat.twoDigits (DateFromTime (LocalTime h t))).
    fold (TimeFormat.twoDigits (MonthFromTime (LocalTime h t) + 1)).
    fold (TimeFormat.twoDigits (HourFromTime (LocalTime h t))).
    fold (TimeFormat.twoDigits (MinFromTime (LocalTime h t))).
    destruct (twoDigits_two (DateFromTime (LocalTime h t))) as (d1 & d2 & ->);
      [lia|].
    destruct (twoDigits_two (MonthFromTime (LocalTime h t) + 1))
      as (m1 & m2 & ->); [lia|].
    destruct (twoDigits_two (HourFromTime (LocalTime h t))) as (h1 & h2 & ->);
      [lia|].
    destruct (twoDigits_two (MinFromTime (LocalTime h t))) as (n1 & n2 & ->);
      [lia|].
    repeat split.
Qed.

Lemma formatChartTime_layout_witness :
  String.length
    (TimeFormat.formatChartTime (istHost 0) (mkDate (Int 1767325216000)))
    = 11%nat /\
  TimeFormat.formatChartTime (istHost 0) (mkDate NaN) = "NaN/NaN NaN:NaN".
Proof.
  destruct (formatChartTime_layout (istHost 0) (mkDate (Int 1767325216000)))
    as [V _].
  destruct (formatChartTime_layout (istHost 0) (mkDate NaN)) as [_ I].
  split; [apply V; reflexivity | apply I; reflexivity].
Defined.

(** X9.  From the API timestamp to the chart label: on a host in the fixed
    zone, a marked timestamp whose fields name a calendar date that exists
    is labelled with its own day, month, hour and minute. *)
Theorem formatChartTime_of_marked_timestamp
        (h : Host) (ts : string) (d : DateFields) (t : TimeFields) :
  fixedZoneHost h ->
  includes ts "T" = true ->
  endsWith ts "Z" = true ->
  wallClock (slice ts 0 (-1)) = Some (d, t) ->
  day d <= DaysInMonth (isLeap (year d)) (month d - 1) ->
  hour t <= 23 ->
  Z.abs (civilTime d t - istOffset) <= maxTime ->
  TimeFormat.formatChartTime h (fst (parseISTTimestamp h (Some ts)))
    = (TimeFormat.twoDigits (day d) ++ "/" ++ TimeFormat.twoDigits (month d)
         ++ " " ++ TimeFormat.twoDigits (hour t) ++ ":"
         ++ TimeFormat.twoDigits (minute t))%string.
Proof.
  intros Hfix HT HZ Hw Hday Hhour Hr.
  rewrite (parseISTTimestamp_zulu_local h ts d t) by assumption.
  unfold UTC; rewrite Hfix.
  rewrite TimeClip_in_range by assumption.
  destruct (wallClock_bounds _ _ _ Hw) as (Hm & Hs & Hms & Hh).
  destruct (wallClock_date_bounds _ _ _ Hw) as (Hmo & Hd).
  unfold TimeFormat.formatChartTime, DateObj.getDate, DateObj.getMonth,
    DateObj.getHours, DateObj.getMinutes, DateObj.localField, LocalTime.
  cbn [fst getTime]. rewrite Hfix.
  replace (civilTime d t - istOffset + istOffset) with (civilTime d t) by lia.
  assert (Hcal :
    YearFromTime (civilTime d t) = year d /\
    MonthFromTime (civilTime d t) = month d - 1 /\
    DateFromTime (civilTime d t) = day d).
  { unfold civilTime, civilDay. apply calendar_roundtrip; try lia.
    unfold MakeTime, msPerDay, msPerHour, msPerMinute, msPerSecond. lia. }
  destruct Hcal as (_ & -> & ->).
  unfold civilTime.
  rewrite HourFromTime_civil, MinFromTime_civil by lia.
  cbn [JSMore.add].
  replace (month d - 1 + 1) with (month d) by lia.
  reflexivity.
Qed.

Lemma formatChartTime_of_marked_timestamp_witness :
  TimeFormat.formatChartTime (istHost 0)
    (fst (parseISTTimestamp (istHost 0) (Some "2026-01-02T09:10:16.000Z")))
    = "02/01 09:10".
Proof.
  assert (Hday : 2 <= DaysInMonth (isLeap 2026) (1 - 1))
    by (vm_compute; discriminate).
  assert (Hhour : 9 <= 23) by lia.
  assert (Hrange : Z.abs (civilTime (mkDateFields 2026 1 2)
                            (mkTimeFields 9 10 16 0 None) - istOffset)
                   <= maxTime) by (vm_compute; discriminate).
  exact (formatChartTime_of_marked_timestamp
           (istHost 0) "2026-01-02T09:10:16.000Z"
           (mkDateFields 2026 1 2) (mkTimeFields 9 10 16 0 None)
           (fun _ _ => eq_refl) eq_refl eq_refl eq_refl Hday Hhour Hrange).
Defined.

End ChartTimeFacts.

(** ** [formatStandardTime] and its callers *)

Section StandardTimeFacts.

Import JSString.

Variable toLocaleString :
  Date -> string -> TimeFormat.DateTimeFormatOptions -> string.

(** X10.  Whatever the locale data print, the formatted time holds no slash. *)
Theorem formatStandardTime_no_slash
        (date : Date) (options : TimeFormat.TimeFormatOptions) :
  includes (TimeFormat.formatStandardTime toLocaleString date options) "/"
    = false.
Proof.
  unfold TimeFormat.formatStandardTime. cbv zeta.
  match goal with
  | |- context [JSMore.replaceAll ?s "/" "-"] =>
      pose proof (replaceAll_removes s "/" "-" eq_refl) as Hs;
      generalize dependent (JSMore.replaceAll s "/" "-")
  end.
  intros f Hf.
  destruct (TimeFormat.withDefault true (TimeFormat.includeTimeZone options)
            && negb (includes f "IST")); [|exact Hf].
  rewrite includes_char_app, Hf. reflexivity.
Qed.

(** X11.  Unless the caller turns the zone off, the formatted time names the
    zone: it is the zone-less output, with " IST" appended exactly when
    that output does not already hold "IST". *)
Theorem formatStandardTime_zone_suffix
        (date : Date) (options : TimeFormat.TimeFormatOptions) :
  TimeFormat.includeTimeZone options <> Some false ->
  let bare :=
    TimeFormat.formatStandardTime toLocaleString date
      (TimeFormat.mkTimeFormatOptions
         (TimeFormat.includeSeconds options) (Some false)
         (TimeFormat.use12Hour options) (TimeFormat.compact options)) in
  TimeFormat.formatStandardTime toLocaleString date options
    = (if includes bare "IST" then bare else (bare ++ " IST")%string) /\
  includes (TimeFormat.formatStandardTime toLocaleString date options) "IST"
    = true.
Proof.
  intros Hz bare.
  assert (Hon : TimeFormat.withDefault true (TimeFormat.includeTimeZone options)
                = true).
  { destruct (TimeFormat.includeTimeZone options) as [[|]|];
      [reflexivity | congruence | reflexivity]. }
  assert (E : TimeFormat.formatStandardTime toLocaleString date options
              = (if includes bare "IST" then bare else (bare ++ " IST")%string)).
  { subst bare. unfold TimeFormat.formatStandardTime. cbv zeta.
    rewrite Hon. cbn [TimeFormat.includeSeconds TimeFormat.includeTimeZone
                        TimeFormat.use12Hour TimeFormat.compact
                        TimeFormat.withDefault andb].
    match goal with
    | |- context [JSMore.replaceAll ?s "/" "-"] =>
        generalize (JSMore.replaceAll s "/" "-")
    end.
    intros f. destruct (includes f "IST"); reflexivity. }
  split; [exact E|].
  rewrite E. destruct (includes bare "IST") eqn:Hb; [exact Hb|].
  apply includes_app_r. reflexivity.
Qed.

(** X12.  [formatDetailedTime] is [formatStandardTime] with its defaults, and
    the copy that reads [TIMEZONE] from the constants prints the same. *)
Theorem formatDetailedTime_agree (date : Date) :
  TimeFormat.formatDetailedTime toLocaleString date
    = TimeFormat.formatStandardTime toLocaleString date TimeFormat.noOptions /\
  TimeFormat.formatDetailedTime' toLocaleString date
    = TimeFormat.formatDetailedTime toLocaleString date.
Proof. split; reflexivity. Qed.

End StandardTimeFacts.

Lemma formatStandardTime_zone_suffix_witness :
  TimeFormat.formatStandardTime (fun _ _ _ => "31/12/2025, 21:41:30")
    (mkDate (Int 1767197490000)) TimeFormat.noOptions
  = "31-12-2025, 21:41:30 IST".
Proof.
  refine (proj1 (formatStandardTime_zone_suffix
                   (fun _ _ _ => "31/12/2025, 21:41:30")
                   (mkDate (Int 1767197490000)) TimeFormat.noOptions _)).
  discriminate.
Defined.

(** ** The severity of a grid cell *)

Section SeverityFacts.

Import TrafficGridCell.

(** X13.  Class, label and colour always name the same tier. *)
Theorem severity_functions_agree (yellow red darkRed : Number) :
  In (getSeverityClass yellow red darkRed,
      getSeverityLabel yellow red darkRed,
      getSeverityColor yellow red darkRed)
     [ ("severity-dark-red", "Critical", "text-traffic-dark-red");
       ("severity-red", "High", "text-traffic-red");
       ("severity-yellow", "Moderate", "text-traffic-yellow");
       ("severity-green", "Normal", "text-traffic-green") ].
Proof.
  unfold getSeverityClass, getSeverityLabel, getSeverityColor.
  destruct (JSMore.gt darkRed 0); [cbn; tauto|].
  destruct (JSMore.gt red 0); [cbn; tauto|].
  destruct (JSMore.gt yellow 0); cbn; tauto.
Qed.

(** X14.  For counts that are not negative, a cell is "Normal" exactly when its
    total is zero, and "Critical" exactly when the dark-red count is not
    zero, whatever the other two are. *)
Theorem severity_label_and_total (yellow red darkRed : Z) :
  0 <= yellow -> 0 <= red -> 0 <= darkRed ->
  (getSeverityLabel (Int yellow) (Int red) (Int darkRed) = "Normal"
   <-> total (Int yellow) (Int red) (Int darkRed) = Int 0) /\
  (getSeverityLabel (Int yellow) (Int red) (Int darkRed) = "Critical"
   <-> darkRed <> 0).
Proof.
  intros Hy Hr Hd.
  unfold getSeverityLabel, total, JSMore.gt, JSMore.add.
  destruct (Z.ltb_spec 0 darkRed);
    [|destruct (Z.ltb_spec 0 red); [|destruct (Z.ltb_spec 0 yellow)]];
    split; split; intros Hside;
      first [ discriminate Hside
            | reflexivity
            | lia
            | injection Hside; lia
            | f_equal; lia
            | exfalso; lia ].
Qed.

Lemma severity_label_and_total_witness :
  getSeverityLabel (Int 0) (Int 0) (Int 0) = "Normal".
Proof.
  apply (proj1 (severity_label_and_total 0 0 0
                  (Z.le_refl 0) (Z.le_refl 0) (Z.le_refl 0))).
  reflexivity.
Defined.

End SeverityFacts.

(** ** Sorting with a comparator *)

Section SortFacts.

Context {A : Type}.
Variable cmp : A -> A -> Number.

Lemma insert_perm (x : A) (l : list A) :
  Permutation (JSMore.insert cmp x l) (x :: l).
Proof.
  induction l as [|y l IH]; cbn [JSMore.insert]; [reflexivity|].
  destruct (JSMore.sortsAfter (cmp x y)); [|reflexivity].
  rewrite IH. apply perm_swap.
Qed.

(** Whatever the comparator answers, sorting only rearranges. *)
Lemma sort_perm (l : list A) : Permutation (JSMore.sort cmp l) l.
Proof.
  induction l as [|x l IH]; [reflexivity|].
  cbn [JSMore.sort fold_right]. fold (JSMore.sort cmp l).
  rewrite insert_perm. constructor. exact IH.
Qed.

(** A comparator that subtracts numeric keys, as [(a, b) => k(a) - k(b)]. *)
Variable key : A -> Number.
Hypothesis cmp_key : forall a b, cmp a b = Num.sub (key a) (key b).





End SortFacts.

(** ** [processChartData] *)

Section ChartDataFacts.

Import ChartData.

Variable calculateTotalTraffic : TrafficData -> Number.
Variable h : Host.

Lemma getProp_setProp (obj : Obj) (k : string) (v : Value) :
  getProp (setProp obj k v) k = v.
Proof.
  induction obj as [|[k' w] obj IH]; cbn [setProp getProp].
  - rewrite String.eqb_refl. reflexivity.
  - destruct (String.eqb k' k) eqn:E; cbn [getProp]; rewrite E; auto.
Qed.

(** Every point carries the parsed timestamp of its record, whatever
    metric is selected. *)
Lemma pointTime_toPoint (m : string) (d : TrafficData) :
  pointTime (toPoint calculateTotalTraffic h m d) = recordTime h d.
Proof.
  unfold pointTime, toPoint, recordTime.
  destruct (String.eqb m "all"); [reflexivity|].
  cbn [setProp].
  destruct (String.eqb "timestamp" m) eqn:E.
  - apply String.eqb_eq in E; subst m. reflexivity.
  - cbn [getProp]. rewrite String.eqb_refl. reflexivity.
Qed.

(** X15.  One point per record: the points are the images of the records taken
    in some order, none lost and none repeated. *)
Theorem processChartData_rearranges (data : list TrafficData) (m : string) :
  exists sorted : list TrafficData,
    Permutation sorted data /\
    processChartData calculateTotalTraffic h data m
      = map (toPoint calculateTotalTraffic h m) sorted /\
    List.length (processChartData calculateTotalTraffic h data m)
      = List.length data.
Proof.
  exists (JSMore.sort (byTimestamp h) data).
  pose proof (sort_perm (byTimestamp h) data) as P.
  repeat split; [exact P|].
  unfold processChartData. rewrite length_map.
  apply Permutation_length. exact P.
Qed.


(** X18.  A point for one metric is the projection of the full point: the same
    timestamp and the same value for that metric. *)
Theorem toPoint_projects (m : string) (d : TrafficData) :
  getProp (toPoint calculateTotalTraffic h m d) "timestamp"
    = getProp (toPoint calculateTotalTraffic h "all" d) "timestamp" /\
  (m <> "all" ->
   getProp (toPoint calculateTotalTraffic h m d) m
     = getProp (toPoint calculateTotalTraffic h "all" d) m).
Proof.
  split.
  - pose proof (pointTime_toPoint m d) as E.
    unfold toPoint. destruct (String.eqb m "all"); [reflexivity|].
    cbn [setProp].
    destruct (String.eqb "timestamp" m) eqn:Em.
    + apply String.eqb_eq in Em; subst m. reflexivity.
    + cbn [getProp]. rewrite String.eqb_refl. reflexivity.
  - intros Hm. unfold toPoint.
    destruct (String.eqb_spec m "all") as [->|_]; [congruence|].
    cbn [String.eqb Ascii.eqb Bool.eqb].
    apply getProp_setProp.
Qed.

(** The severity of a full point is always a number: a missing value, 0
    and NaN all become 0. *)
Theorem toPoint_latest_severity (d : TrafficData) :
  exists z : Z,
    getProp (toPoint calculateTotalTraffic h "all" d) "latest_severity"
      = VNum (Int z) /\
    (latest_severity d = None -> z = 0).
Proof.
  unfold toPoint. cbn.
  destruct (latest_severity d) as [[|x]|]; cbn [JSMore.orZero].
  - exists 0; split; [reflexivity | discriminate].
  - destruct (x =? 0); eexists; split; try reflexivity; discriminate.
  - exists 0; split; reflexivity.
Qed.

End ChartDataFacts.


Lemma toPoint_projects_witness :
  ChartData.getProp
    (ChartData.toPoint (fun _ => Int 5) (istHost 0) "red"
       (ChartData.mkTrafficData (Int 3) (Int 4) (Int 0) (Int 2) (Int 0)
          "2025-12-31 21:41:30" None)) "red"
  = ChartData.VNum (Int 2).
Proof.
  refine (proj2 (toPoint_projects (fun _ => Int 5) (istHost 0) "red"
                   (ChartData.mkTrafficData (Int 3) (Int 4) (Int 0) (Int 2)
                      (Int 0) "2025-12-31 21:41:30" None)) _).
  discriminate.
Defined.

(** ** [toISOString] and the Date constructor *)

Section ISORoundTrip.

Import JSString DateOps DateString ISOString.

Lemma enum_range (P : Z -> bool) (b : Z) :
  forallb (fun k => P (Z.of_nat k)) (seq 0 (Z.to_nat b)) = true ->
  forall v : Z, 0 <= v < b -> P v = true.
Proof.
  intros Hall v Hv.
  rewrite forallb_forall in Hall.
  specialize (Hall (Z.to_nat v)).
  rewrite Z2Nat.id in Hall by lia.
  apply Hall, in_seq. lia.
Qed.

Lemma pad2_readsBack (v : Z) : 0 <= v < 100 -> readsBack 2 v (pad 2 v) = true.
Proof.
  apply (enum_range (fun v => readsBack 2 v (pad 2 v)) 100).
  vm_compute. reflexivity.
Qed.

Lemma pad3_readsBack (v : Z) : 0 <= v < 1000 -> readsBack 3 v (pad 3 v) = true.
Proof.
  apply (enum_range (fun v => readsBack 3 v (pad 3 v)) 1000).
  vm_compute. reflexivity.
Qed.

Lemma pad4_readsBack (v : Z) : 0 <= v < 10000 -> readsBack 4 v (pad 4 v) = true.
Proof.
  apply (enum_range (fun v => readsBack 4 v (pad 4 v)) 10000).
  vm_compute. reflexivity.
Qed.

Lemma readDigits_app (n : nat) :
  forall (s rest : string) (acc w : Z) (r : string),
    readDigits n s acc = Some (w, r) ->
    readDigits n (s ++ rest) acc = Some (w, (r ++ rest)%string).
Proof.
  induction n as [|n IH]; intros s rest acc w r; cbn [readDigits].
  - intros [= <- <-]. reflexivity.
  - destruct s as [|c s]; [discriminate|]. cbn [append].
    destruct (digitVal c); cbn [DateString.bind]; [|discriminate].
    apply IH.
Qed.

(** What [readsBack] gives: the digits are read back in front of any
    rest, and hold no other code unit. *)
Lemma readsBack_read (n : nat) (v : Z) (s rest : string) :
  readsBack n v s = true -> readDigits n (s ++ rest) 0 = Some (v, rest).
Proof.
  unfold readsBack. intros H.
  apply andb_true_iff in H as [_ H].
  destruct (readDigits n s 0) as [[w [|c r]]|] eqn:E; try discriminate.
  apply Z.eqb_eq in H; subst w.
  apply (readDigits_app n s rest) in E. exact E.
Qed.

Lemma readsBack_digits (n : nat) (v : Z) (s : string) :
  readsBack n v s = true -> allDigits s = true.
Proof.
  unfold readsBack. intros H.
  apply andb_true_iff in H as [H _].
  apply andb_true_iff in H as [H _]. exact H.
Qed.

Lemma readsBack_nonempty (n : nat) (v : Z) (s : string) :
  readsBack (S n) v s = true ->
  exists (c : ascii) (r : string), s = String c r /\ isDigit c = true.
Proof.
  unfold readsBack. intros H.
  apply andb_true_iff in H as [H _].
  apply andb_true_iff in H as [Hd Hl].
  destruct s as [|c r]; [discriminate|].
  cbn [allDigits] in Hd. apply andb_true_iff in Hd as [Hc _]. eauto.
Qed.

Lemma allDigits_excludes (s : string) (c : ascii) :
  isDigit c = false -> allDigits s = true ->
  includes s (String c EmptyString) = false.
Proof.
  intros Hc. induction s as [|a s IH]; [reflexivity|].
  cbn [allDigits]. intros H. apply andb_true_iff in H as [Ha Hs].
  rewrite includes_char_cons, (IH Hs), orb_false_r.
  destruct (Ascii.eqb_spec a c) as [->|_]; [congruence | reflexivity].
Qed.

Lemma digit_expect_other (a c : ascii) (r : string) :
  isDigit a = true -> isDigit c = false -> expect c (String a r) = None.
Proof.
  intros Ha Hc. cbn [expect].
  destruct (Ascii.eqb_spec a c) as [->|_]; [congruence | reflexivity].
Qed.

Lemma splitAt_app (l r : string) (c : ascii) :
  includes l (String c EmptyString) = false ->
  splitAt c (l ++ String c r) = Some (l, r).
Proof.
  induction l as [|a l IH]; cbn [append splitAt].
  - intros _. rewrite Ascii.eqb_refl. reflexivity.
  - rewrite includes_char_cons. intros H.
    apply orb_false_iff in H as [Ha Hl].
    rewrite Ha, (IH Hl). reflexivity.
Qed.

(** The date part of the format, from digit groups that read back. *)
Lemma parseDatePart_groups (Ys Ms Ds : string) (y m d : Z) :
  readsBack 4 y Ys = true -> readsBack 2 m Ms = true ->
  readsBack 2 d Ds = true ->
  1 <= m <= 12 -> 1 <= d <= 31 ->
  parseDatePart (Ys ++ String "-" (Ms ++ String "-" Ds))
    = Some (mkDateFields y m d).
Proof.
  intros HY HM HD Hm Hd.
  unfold parseDatePart, parseYear.
  destruct (readsBack_nonempty _ _ _ HY) as (a & r & -> & Ha).
  cbn [append].
  rewrite !(digit_expect_other a) by (assumption || reflexivity).
  change (String a (r ++ String "-" (Ms ++ String "-" Ds)))
    with ((String a r) ++ String "-" (Ms ++ String "-" Ds))%string.
  rewrite (readsBack_read 4 y _ _ HY).
  cbn [DateString.bind atEnd expect Ascii.eqb Bool.eqb].
  rewrite (readsBack_read 2 m Ms _ HM). cbn [DateString.bind].
  replace ((1 <=? m) && (m <=? 12)) with true
    by (symmetry; apply andb_true_iff; split; apply Z.leb_le; lia).
  cbn [guard DateString.bind atEnd expect Ascii.eqb Bool.eqb].
  replace Ds with (Ds ++ EmptyString)%string at 1
    by (clear; induction Ds; cbn; congruence).
  rewrite (readsBack_read 2 d Ds _ HD). cbn [DateString.bind].
  replace ((1 <=? d) && (d <=? 31)) with true
    by (symmetry; apply andb_true_iff; split; apply Z.leb_le; lia).
  reflexivity.
Qed.

(** The time part of the format with the "Z" offset. *)
Lemma parseTimePart_groups (Hs Mis Ss MSs : string) (hh mi ss ms : Z) :
  readsBack 2 hh Hs = true -> readsBack 2 mi Mis = true ->
  readsBack 2 ss Ss = true -> readsBack 3 ms MSs = true ->
  0 <= hh <= 23 -> 0 <= mi <= 59 -> 0 <= ss <= 59 ->
  parseTimePart
    (Hs ++ String ":" (Mis ++ String ":" (Ss ++ String "." (MSs ++ "Z"))))
    = Some (mkTimeFields hh mi ss ms (Some 0)).
Proof.
  intros HH HMi HS HMs Hh Hmi Hs'.
  unfold parseTimePart, parseSeconds.
  rewrite (readsBack_read 2 hh Hs _ HH).
  cbn [DateString.bind expect Ascii.eqb Bool.eqb].
  rewrite (readsBack_read 2 mi Mis _ HMi).
  cbn [DateString.bind expect Ascii.eqb Bool.eqb].
  rewrite (readsBack_read 2 ss Ss _ HS).
  cbn [DateString.bind expect Ascii.eqb Bool.eqb].
  rewrite (readsBack_read 3 ms MSs _ HMs).
  cbn [DateString.bind parseOffset atEnd expect Ascii.eqb Bool.eqb].
  replace ((hh <=? 24) && (mi <=? 59) && (ss <=? 59)) with true
    by (symmetry; rewrite !andb_true_iff; repeat split; apply Z.leb_le; lia).
  replace (hh <? 24) with true by (symmetry; apply Z.ltb_lt; lia).
  reflexivity.
Qed.

(** A time value is the calendar count of its own fields. *)
Lemma fields_recompose (t : Z) :
  MakeDate
    (MakeDay (YearFromTime t) (MonthFromTime t) (DateFromTime t))
    (MakeTime (HourFromTime t) (MinFromTime t) (SecFromTime t) (msFromTime t))
  = t.
Proof.
  pose proof (MonthFromTime_bounds t) as HM.
  unfold MakeDay. rewrite Z.div_small, Z.mod_small, Z.add_0_r by lia.
  unfold DateFromTime, DayWithinYear.
  replace (DayFromYear (YearFromTime t)
           + monthStart (isLeap (YearFromTime t)) (MonthFromTime t)
           + (Day t - DayFromYear (YearFromTime t)
              - monthStart (isLeap (YearFromTime t)) (MonthFromTime t) + 1)
           - 1) with (Day t) by lia.
  unfold MakeDate, MakeTime, Day, HourFromTime, MinFromTime, SecFromTime,
    msFromTime, msPerDay, msPerHour, msPerMinute, msPerSecond.
  Z.div_mod_to_equations. lia.
Qed.

(** Time values of the years 0 to 9999 are inside the range of Dates. *)
Lemma fourDigitYear_time_range (t : Z) :
  0 <= YearFromTime t <= 9999 -> Z.abs t <= maxTime.
Proof.
  intros Hy. pose proof (YearFromTime_spec t) as Hs.
  pose proof (DayFromYear_linear (YearFromTime t)).
  pose proof (DayFromYear_linear (YearFromTime t + 1)).
  unfold Day, msPerDay, maxTime in *.
  Z.div_mod_to_equations. lia.
Qed.

(** X19.  Round trip: for a Date in the years 0 to 9999, the Date constructor
    reads the output of [toISOString] back as the same Date, on every
    host.  So a grid cell shows the instant at which its mock record was
    stamped. *)
Theorem toISOString_roundtrip (h : Host) (date : Date) (t : Z) :
  getTime date = Int t ->
  0 <= YearFromTime t <= 9999 ->
  exists s : string,
    toISOString date = Some s /\
    cellDate h s = mkDate (Int t) /\
    includes s "T" = true /\ endsWith s "Z" = true.
Proof.
  intros Ht Hy.
  unfold toISOString. rewrite Ht. eexists. split; [reflexivity|].
  pose proof (MonthFromTime_bounds t) as HM.
  pose proof (DateFromTime_bounds t) as HD.
  pose proof (HourFromTime_bounds t) as HH.
  pose proof (MinFromTime_bounds t) as HN.
  assert (HS : 0 <= SecFromTime t <= 59).
  { unfold SecFromTime. pose proof (Z.mod_pos_bound (t / msPerSecond) 60). lia. }
  assert (HMS : 0 <= msFromTime t < 1000).
  { unfold msFromTime, msPerSecond. apply Z.mod_pos_bound. lia. }
  unfold yearString.
  replace ((0 <=? YearFromTime t) && (YearFromTime t <=? 9999)) with true
    by (symmetry; apply andb_true_iff; split; apply Z.leb_le; lia).
  pose proof (pad4_readsBack (YearFromTime t) ltac:(lia)) as RY.
  pose proof (pad2_readsBack (MonthFromTime t + 1) ltac:(lia)) as RM.
  pose proof (pad2_readsBack (DateFromTime t) ltac:(lia)) as RD.
  pose proof (pad2_readsBack (HourFromTime t) ltac:(lia)) as RH.
  pose proof (pad2_readsBack (MinFromTime t) ltac:(lia)) as RN.
  pose proof (pad2_readsBack (SecFromTime t) ltac:(lia)) as RS.
  pose proof (pad3_readsBack (msFromTime t) ltac:(lia)) as RMS.
  set (Ys := pad 4 (YearFromTime t)) in *.
  set (Ms := pad 2 (MonthFromTime t + 1)) in *.
  set (Ds := pad 2 (DateFromTime t)) in *.
  set (Hs := pad 2 (HourFromTime t)) in *.
  set (Ns := pad 2 (MinFromTime t)) in *.
  set (Ss := pad 2 (SecFromTime t)) in *.
  set (MSs := pad 3 (msFromTime t)) in *.
  clearbody Ys Ms Ds Hs Ns Ss MSs.
  set (timePart := (Hs ++ String ":" (Ns ++ String ":" (Ss ++ String "." (MSs ++ "Z"))))%string).
  set (datePart := (Ys ++ String "-" (Ms ++ String "-" Ds))%string).
  assert (Eshape :
    (Ys ++ "-" ++ Ms ++ "-" ++ Ds ++ "T" ++ Hs ++ ":" ++ Ns ++ ":" ++ Ss
        ++ "." ++ MSs ++ "Z")%string
    = (datePart ++ String "T" timePart)%string).
  { subst datePart timePart. cbn [append].
    rewrite !append_assoc. cbn [append]. rewrite !append_assoc.
    reflexivity. }
  rewrite Eshape.
  assert (HnoT : includes datePart "T" = false).
  { subst datePart.
    rewrite includes_char_app, includes_char_cons,
      includes_char_app, includes_char_cons.
    rewrite !(allDigits_excludes _ "T") by (reflexivity || eauto using readsBack_digits).
    reflexivity. }
  assert (Hparse : parseDateTimeString (datePart ++ String "T" timePart)
                   = Some (mkParsed
                             (mkDateFields (YearFromTime t)
                                (MonthFromTime t + 1) (DateFromTime t))
                             (Some (mkTimeFields (HourFromTime t)
                                      (MinFromTime t) (SecFromTime t)
                                      (msFromTime t) (Some 0))))).
  { unfold parseDateTimeString. rewrite (splitAt_app _ _ _ HnoT).
    subst datePart timePart.
    rewrite (parseDatePart_groups Ys Ms Ds _ _ _ RY RM RD) by lia.
    cbn [DateString.bind].
    rewrite (parseTimePart_groups Hs Ns Ss MSs _ _ _ _ RH RN RS RMS) by lia.
    reflexivity. }
  repeat split.
  - unfold cellDate, DateObj.ofString, DateString.parse.
    rewrite Hparse. unfold timeValue, civilTime, civilDay.
    cbn [ptime pdate offset year month day hour minute second millisecond].
    replace (MonthFromTime t + 1 - 1) with (MonthFromTime t) by lia.
    rewrite fields_recompose.
    replace (t - 0 * msPerMinute) with t by lia.
    rewrite TimeClip_in_range by (apply fourDigitYear_time_range; assumption).
    reflexivity.
  - rewrite includes_char_app, includes_char_cons. apply orb_true_r.
  - subst timePart.
    replace (datePart ++ String "T" (Hs ++ String ":" (Ns ++ String ":" (Ss ++ String "." (MSs ++ "Z")))))%string
      with ((datePart ++ String "T" (Hs ++ String ":" (Ns ++ String ":" (Ss ++ String "." MSs)))) ++ "Z")%string.
    + apply endsWith_app.
    + rewrite !append_assoc. cbn [append]. rewrite !append_assoc.
      cbn [append]. rewrite !append_assoc. cbn [append].
      rewrite !append_assoc. reflexivity.
Qed.

Lemma toISOString_roundtrip_witness :
  exists s : string,
    toISOString (mkDate (Int 1767325216000)) = Some s /\
    cellDate (istHost 0) s = mkDate (Int 1767325216000) /\
    includes s "T" = true /\ endsWith s "Z" = true.
Proof.
  apply (toISOString_roundtrip (istHost 0) (mkDate (Int 1767325216000))
           1767325216000 eq_refl).
  vm_compute. split; discriminate.
Defined.

End ISORoundTrip.

(** ** Stability of the chart order *)

Section ChartStability.

Import ChartData.

Variable calculateTotalTraffic : TrafficData -> Number.
Variable h : Host.






End ChartStability.


(** ** [getChartLines] against the points *)

Section ChartLinesFacts.

Import ChartData ChartLines.

Variable CHART_COLORS : string -> option string.
Variable METRIC_CONFIG : list (string * option string).
Variable calculateTotalTraffic : TrafficData -> Number.
Variable h : Host.

(** X20.  Lines and points fit: for "all" and for each of the five numeric
    metrics, every line that [getChartLines] returns has a [dataKey] under
    which every point built for the same metric holds a number; and a
    single metric gives exactly one line, keyed by the metric. *)
Theorem chart_lines_have_data (m : string) (d : TrafficData) :
  In m ("all" :: numericKeys) ->
  Forall
    (fun l => exists n : Number,
       getProp (toPoint calculateTotalTraffic h m d) (dataKey l) = VNum n)
    (getChartLines CHART_COLORS METRIC_CONFIG m) /\
  (m <> "all" ->
   map dataKey (getChartLines CHART_COLORS METRIC_CONFIG m) = [m]).
Proof.
  intros Hm. cbn in Hm.
  repeat (destruct Hm as [<-|Hm];
          [split; [repeat constructor; eexists; reflexivity
                  | intros Hne; first [congruence | reflexivity]]|]).
  destruct Hm.
Qed.

End ChartLinesFacts.

Lemma chart_lines_have_data_witness :
  map ChartLines.dataKey
    (ChartLines.getChartLines (fun _ => None) [] "total") = ["total"].
Proof.
  refine (proj2 (chart_lines_have_data (fun _ => None) [] (fun _ => Int 0)
                   (istHost 0) "total"
                   (ChartData.mkTrafficData (Int 0) (Int 0) (Int 0) (Int 0)
                      (Int 0) "2025-12-31 21:41:30" None) _) _).
  - cbn. tauto.
  - discriminate.
Defined.

(** ** The zone of the host in [parseISTTimestamp] *)

Section HostZone.

Import JSString DateOps DateString TimeUtils.




(** C2, at the failing input.  On a host in the fixed +05:30 zone the
    no-marker timestamp "2026-01-02T15:30:00.000", whose UTC reading is
    15:30:00Z, comes out as 04:30:00Z: the Date constructor has read the
    fields as local time, and the 5.5 hours meant to convert a UTC reading
    are subtracted from that.  The result is 11 hours before the UTC
    reading, none of the readings that take the string for UTC; on a host
    on UTC the same call gives the UTC reading moved by 5.5 hours. *)
Theorem parseISTTimestamp_no_marker_on_fixed_zone_host (now : Z) :
  includes "2026-01-02T15:30:00.000" "T" = true /\
  endsWith "2026-01-02T15:30:00.000" "Z" = false /\
  wallClock "2026-01-02T15:30:00.000"
    = Some (mkDateFields 2026 1 2, mkTimeFields 15 30 0 0 None) /\
  civilTime (mkDateFields 2026 1 2) (mkTimeFields 15 30 0 0 None)
    = 1767367800000 /\
  parseISTTimestamp (istHost now) (Some "2026-01-02T15:30:00.000")
    = (mkDate (Int 1767328200000), []) /\
  1767328200000 = 1767367800000 - 2 * istOffset /\
  ~ readAsUtcThenShifted (istHost now) "2026-01-02T15:30:00.000" /\
  parseISTTimestamp (utcHost now) (Some "2026-01-02T15:30:00.000")
    = (mkDate (Int (1767367800000 - istOffset)), []).
Proof.
  split; [vm_compute; reflexivity|].
  split; [vm_compute; reflexivity|].
  split; [vm_compute; reflexivity|].
  split; [vm_compute; reflexivity|].
  split; [vm_compute; reflexivity|].
  split; [vm_compute; reflexivity|].
  split; [|vm_compute; reflexivity].
  intros H.
  destruct (H _ _ eq_refl) as [E|[E|E]]; vm_compute in E; discriminate.
Qed.

End HostZone.
